(** * altair.sphinxext.utils: executing example scripts and splitting docstrings

    A shallow embedding of [altair/sphinxext/utils.py] and the properties of
    [exec_then_eval], [_CatchDisplay], [_parse_source_file] and
    [get_docstring_and_rest].

    The module is a thin layer over the Python runtime: it calls [ast.parse],
    [compile]/[exec], [open], [tokenize.tokenize] and swaps [sys.displayhook].
    Those services are not code of the module; they are gathered in the record
    [Python] and every theorem is stated for an arbitrary such runtime.  What
    the module itself computes (byte replacement, UTF-8 decoding, [str.split],
    [str.join], slicing, the control flow and the exception flow) is written
    out as executable functions.

    The runtime is Python 3: the file content is read as [bytes] and decoded
    to a [str], a string literal of the syntax tree holds a [str], and
    [compile] accepts the [ast.Module([node])] and [ast.Interactive([node])]
    nodes the module builds.  Client code reaches the capture only through
    the reporting channel: it may call [sys.displayhook], assign it another
    callable and delete it. *)

From Stdlib Require Import ZArith NArith.
From Stdlib.Strings Require Import Ascii String Byte.
From stdpp Require Import gmap strings list.

Local Open Scope string_scope.
Local Open Scope list_scope.
Local Open Scope Z_scope.

(** ** Data *)

(** A [bytes] object. *)
Abbreviation bytes := (list Byte.byte).

(** A [str] object: a sequence of Unicode code points. *)
Abbreviation text := (list N).

#[global] Instance byte_eq_dec : EqDecision Byte.byte := Byte.byte_eq_dec.

Definition LF : Byte.byte := Byte.x0a.
Definition CR : Byte.byte := Byte.x0d.
Definition DQ : Byte.byte := Byte.x22.

(** The code point of ['\n']. *)
Definition NL : N := 10%N.

(** ASCII literals as [bytes] and as [str]. *)
Definition b_ (s : string) : bytes := list_byte_of_string s.
Definition u_ (s : string) : text := Byte.to_N <$> list_byte_of_string s.

(** Exceptions, with the part of the class hierarchy the module depends on:
    [except SyntaxError] also catches [IndentationError] and [TabError]. *)
Inductive exn : Type :=
  | SyntaxError
  | IndentationError
  | TabError
  | ValueError (msg : string)
  | TypeError (msg : string)
  | AttributeError
  | IndexError
  | RuntimeError (msg : string)
  | UnboundLocalError
  | UnicodeDecodeError
  | OSError (msg : string)
  | OtherError (name : string).

Definition isinstance_SyntaxError (e : exn) : bool :=
  match e with
  | SyntaxError | IndentationError | TabError => true
  | _ => false
  end.

(** The outcome of a call: a returned value or a raised exception. *)
Inductive result (A : Type) : Type :=
  | Return (a : A)
  | Raise (e : exn).
Arguments Return {A} a.
Arguments Raise {A} e.

#[global] Instance result_ret : MRet result := λ A a, Return a.
#[global] Instance result_bind : MBind result := λ A B k r,
  match r with
  | Return a => k a
  | Raise e => Raise e
  end.

(** Python values, as far as the module looks at them. *)
Inductive value : Type :=
  | VNone
  | VInt (z : Z)
  | VStr (s : text)
  | VBytes (b : bytes)
  | VObject (id : nat).

(** ** Syntax trees

    Only the shape the module inspects is kept: whether a statement is an
    [ast.Expr], whether its value is an [ast.Str], the string of that literal
    and the statement's [lineno].  Every other construct is carried as its
    source text.  What a statement or an expression does when it is run,
    a string literal included, is the runtime's to say. *)
Inductive expr : Type :=
  | Str (s : text)
  | PyExpr (src : string).

Inductive stmt : Type :=
  | Expr (lineno : Z) (value : expr)
  | PyStmt (lineno : Z) (src : string).

(** [Module] carries the optional [docstring] attribute: [None] when the node
    class has no such attribute (reading it raises [AttributeError]),
    [Some d] when it has one with value [d] ([d = None] for Python's [None]). *)
Inductive ast : Type :=
  | Module (body : list stmt) (docstring : option (option text))
  | Interactive (body : list stmt)
  | Expression (body : expr).

Definition __class____name__ (node : ast) : string :=
  match node with
  | Module _ _ => "Module"
  | Interactive _ => "Interactive"
  | Expression _ => "Expression"
  end.

Definition isinstance_Expr (node : stmt) : bool :=
  match node with
  | Expr _ _ => true
  | PyStmt _ _ => false
  end.

(** A token of [tokenize]: its exact type and the (row, column) where it ends. *)
Record TokenInfo : Type := { exact_type : Z; tk_end : Z * Z }.

(** The argument of [ast.parse]: [bytes] or [str]. *)
Inductive source : Type :=
  | SrcBytes (b : bytes)
  | SrcStr (s : text).

(** ** The reporting channel

    [sys.displayhook] holds either a hook that existed before the capture
    ([sys.__displayhook__] or some other callable) or the [_CatchDisplay]
    instance itself, or the attribute has been deleted from [sys]. *)
Inductive outer_hook : Type :=
  | sys___displayhook__
  | other_hook (id : nat).

Inductive hook : Type :=
  | Outer (h : outer_hook)
  | Self
  | Deleted.

(** What executed client code does to the reporting channel, in order:
    it may call [sys.displayhook(v)], assign [sys.displayhook] and delete
    [sys.displayhook]. *)
Inductive event : Type :=
  | Report (v : value)
  | Rebind (h : outer_hook)
  | Delete.

(** One run of client code: the channel events it performed, the namespace
    it left, and how it ended. *)
Record run (A : Type) : Type :=
  { events : list event;
    globals : gmap string value;
    outcome : result A }.
Arguments events {A} r.
Arguments globals {A} r.
Arguments outcome {A} r.

(** ** The Python runtime *)
Record Python : Type :=
  { (** [open(filename, 'rb')] followed by [read()] *)
    read_binary : string → result bytes;
    (** [ast.parse] in mode ['exec'] *)
    ast_parse : source → result ast;
    (** the tokens of [tokenize.tokenize(readline)] *)
    tokenize_tokenize : bytes → list TokenInfo;
    (** the run of [exec(compile(ast.Interactive([node]), filename, 'single'),
        namespace)] for an expression statement with this expression, up to
        the value that the interpreter then passes to [sys.displayhook] *)
    eval_expr : expr → gmap string value → hook → run value;
    (** the run of [exec(compile(ast.Module([node]), filename, 'exec'),
        namespace)] *)
    exec_stmt : stmt → gmap string value → hook → run unit;
    (** calling a hook that is not the capture: [None] when it returns *)
    call_hook : outer_hook → value → option exn }.

(** ** Built-in operations used by the module *)

(** [content.replace(b'\r\n', b'\n')]: every occurrence, scanning from the
    left; occurrences of this pattern cannot overlap. *)
Fixpoint replace_crlf (content : bytes) : bytes :=
  match content with
  | [] => []
  | c :: rest =>
      match rest with
      | c' :: rest' =>
          if Byte.eqb c CR && Byte.eqb c' LF then LF :: replace_crlf rest'
          else c :: replace_crlf rest
      | [] => [c]
      end
  end.

(** [content.decode('utf-8')] with the default strict error handling: shortest
    encodings only, no surrogates, nothing above U+10FFFF. *)
Definition continuation (n : N) : bool := ((0x80 <=? n) && (n <=? 0xBF))%N.

Definition second_of_three (n0 n1 : N) : bool :=
  (if n0 =? 0xE0 then (0xA0 <=? n1) && (n1 <=? 0xBF)
   else if n0 =? 0xED then (0x80 <=? n1) && (n1 <=? 0x9F)
   else continuation n1)%N.

Definition second_of_four (n0 n1 : N) : bool :=
  (if n0 =? 0xF0 then (0x90 <=? n1) && (n1 <=? 0xBF)
   else if n0 =? 0xF4 then (0x80 <=? n1) && (n1 <=? 0x8F)
   else continuation n1)%N.

Fixpoint utf8_decode (b : bytes) : option text :=
  match b with
  | [] => Some []
  | b0 :: r0 =>
    let n0 := Byte.to_N b0 in
    if (n0 <? 0x80)%N then cons n0 <$> utf8_decode r0 else
    match r0 with
    | [] => None
    | b1 :: r1 =>
      let n1 := Byte.to_N b1 in
      if ((0xC2 <=? n0) && (n0 <=? 0xDF))%N then
        if continuation n1
        then cons ((n0 - 0xC0) * 64 + (n1 - 0x80))%N <$> utf8_decode r1
        else None
      else
      match r1 with
      | [] => None
      | b2 :: r2 =>
        let n2 := Byte.to_N b2 in
        if ((0xE0 <=? n0) && (n0 <=? 0xEF))%N then
          if second_of_three n0 n1 && continuation n2
          then cons ((n0 - 0xE0) * 4096 + (n1 - 0x80) * 64 + (n2 - 0x80))%N
                 <$> utf8_decode r2
          else None
        else
        match r2 with
        | [] => None
        | b3 :: r3 =>
          let n3 := Byte.to_N b3 in
          if ((0xF0 <=? n0) && (n0 <=? 0xF4))%N
             && second_of_four n0 n1 && continuation n2 && continuation n3
          then cons ((n0 - 0xF0) * 262144 + (n1 - 0x80) * 4096
                     + (n2 - 0x80) * 64 + (n3 - 0x80))%N <$> utf8_decode r3
          else None
        end
      end
    end
  end.

Definition bytes_decode (content : bytes) : result text :=
  match utf8_decode content with
  | Some s => Return s
  | None => Raise UnicodeDecodeError
  end.

(** [s.split(sep, maxsplit)] for a one-character separator: at most [n]
    splits from the left; [acc] holds the current piece, reversed. *)
Fixpoint split_go (sep : N) (n : nat) (acc : text) (s : text) : list text :=
  match s with
  | [] => [rev acc]
  | c :: s' =>
      match n with
      | O => [rev acc ++ s]
      | S n' =>
          if (c =? sep)%N then rev acc :: split_go sep n' [] s'
          else split_go sep n (c :: acc) s'
      end
  end.

(** A negative [maxsplit] means no limit; a string of length [k] has at most
    [k] separators. *)
Definition str_split (s : text) (sep : N) (maxsplit : Z) : list text :=
  split_go sep (if maxsplit <? 0 then length s else Z.to_nat maxsplit) [] s.

(** [sep.join(pieces)] *)
Fixpoint str_join (sep : N) (pieces : list text) : text :=
  match pieces with
  | [] => []
  | [p] => p
  | p :: ps => p ++ sep :: str_join sep ps
  end.

(** [l[start:stop]] with step 1; [None] is an omitted bound, a negative bound
    counts from the end, and bounds are clipped to the list. *)
Definition clip (len : nat) (i : Z) : nat :=
  if i <? 0 then Z.to_nat (Z.max 0 (Z.of_nat len + i))
  else Nat.min (Z.to_nat i) len.

Definition slice {A} (l : list A) (start stop : option Z) : list A :=
  let lo := from_option (clip (length l)) O start in
  let hi := from_option (clip (length l)) (length l) stop in
  take (hi - lo) (drop lo l).

(** [l[-1]] *)
Definition item_last {A} (l : list A) : result A :=
  match last l with
  | Some x => Return x
  | None => Raise IndexError
  end.

(** [io.BytesIO(initial)]: the buffer, for an argument that supports the
    buffer protocol; a [str] does not. *)
Definition BytesIO (initial : value) : result bytes :=
  match initial with
  | VBytes b => Return b
  | VNone => Return []
  | VStr _ => Raise (TypeError "a bytes-like object is required, not 'str'")
  | VInt _ => Raise (TypeError "a bytes-like object is required, not 'int'")
  | VObject _ => Raise (TypeError "a bytes-like object is required")
  end.

(** [not docstring] for a docstring that is [None] or a [str]. *)
Definition falsy (docstring : option text) : bool :=
  match docstring with
  | Some (_ :: _) => false
  | _ => true
  end.

(** ** Source Loader and Docstring Splitter *)

Definition SYNTAX_ERROR_DOCSTRING : text :=
  NL :: u_ "SyntaxError" ++ NL :: u_ "===========" ++
  NL :: u_ "Example script with invalid Python syntax" ++ [NL].

(** [_parse_source_file(filename)]: the pair [(node, content)], where [node]
    is [None] after a syntax error. *)
Definition _parse_source_file (py : Python) (filename : string)
  : result (option ast * text) :=
  content ← read_binary py filename;
  (* change from Windows format to UNIX for uniformity *)
  let content := replace_crlf content in
  match ast_parse py (SrcBytes content) with
  | Return node =>
      s ← bytes_decode content; Return (Some node, s)
  | Raise e =>
      if isinstance_SyntaxError e
      then s ← bytes_decode content; Return (None, s)
      else Raise e
  end.

(** The message of the [ValueError] raised for a missing docstring. *)
Definition missing_docstring_message (filename : string) : string :=
  "Could not find docstring in file " +:+
  String (ascii_of_byte DQ)
    (filename +:+
     String (ascii_of_byte DQ)
       ". A docstring is required for the example gallery.").

(** [docstring = node.docstring] *)
Definition getattr_docstring (node_docstring : option (option text))
  : result (option text) :=
  match node_docstring with
  | Some d => Return d
  | None => Raise AttributeError
  end.

(** The first token whose exact type is 3 (STRING) gives [ds_lines], the row
    where it ends; [ds_lines] keeps its initial 0 when there is none. *)
Fixpoint first_string_end (ts : list TokenInfo) : Z :=
  match ts with
  | [] => 0
  | tk :: ts' =>
      if exact_type tk =? 3 then fst (tk_end tk) else first_string_end ts'
  end.

(** The body of the [try]: the values it binds to [docstring], [rest] and
    [lineno].  [content] is the decoded text, a [str]. *)
Definition docstring_from_attribute (py : Python)
    (node_docstring : option (option text)) (content : text)
  : result (option text * text * option Z) :=
  docstring ← getattr_docstring node_docstring;
  buffer ← BytesIO (VStr content);
  let ts := tokenize_tokenize py buffer in
  let ds_lines := first_string_end ts in
  (* grab the rest of the file *)
  let rest := str_join NL (slice (str_split content NL (-1)) (Some ds_lines) None) in
  let lineno := ds_lines + 1 in
  Return (docstring, rest, Some lineno).

(** The body of the [except AttributeError] handler; [lineno] stays unbound in
    its [else] part.  In Python 3 a [str] has no [decode] attribute, so the
    docstring is taken as it is. *)
Definition docstring_from_body (body : list stmt) (content : text)
  : result (option text * text * option Z) :=
  match body with
  | Expr lineno (Str s) :: _ =>
      let docstring := s in
      (* This get the content of the file after the docstring last line *)
      rest ← item_last (str_split content NL lineno);
      Return (Some docstring, rest, Some (lineno + 1))
  | _ => Return (Some [], [], None)
  end.

(** [get_docstring_and_rest(filename)]: [(docstring, rest, lineno)]. *)
Definition get_docstring_and_rest (py : Python) (filename : string)
  : result (text * text * Z) :=
  '(node, content) ← _parse_source_file py filename;
  match node with
  | None => Return (SYNTAX_ERROR_DOCSTRING, content, 1)
  | Some (Module body node_docstring) =>
      '(docstring, rest, lineno) ←
        match docstring_from_attribute py node_docstring content with
        | Raise AttributeError => docstring_from_body body content
        | r => r
        end;
      if falsy docstring
      then Raise (ValueError (missing_docstring_message filename))
      else
        match docstring, lineno with
        | Some docstring, Some lineno => Return (docstring, rest, lineno)
        | _, _ => Raise UnboundLocalError
        end
  | Some node =>
      Raise (TypeError ("This function only supports modules. You provided "
                        +:+ __class____name__ node))
  end.

(** ** Display Capture and Split-Execute *)

(** An instance of [_CatchDisplay]; [old_hook] is unset until [__enter__]. *)
Record _CatchDisplay : Type :=
  { output : value;
    old_hook : option hook }.

(** What a call of [exec_then_eval] works on: the namespace dict, the
    process-wide [sys.displayhook], and its [_CatchDisplay] instance. *)
Record state : Type :=
  { namespace : gmap string value;
    displayhook : hook;
    catch_display : _CatchDisplay }.

Definition __init__ : _CatchDisplay :=
  {| output := VNone; old_hook := None |}.

(** [self.old_hook = sys.displayhook] fails when [sys] has lost the
    attribute; nothing has been assigned then. *)
Definition __enter__ (st : state) : result state :=
  match displayhook st with
  | Deleted => Raise AttributeError
  | h =>
      Return {| namespace := namespace st;
                displayhook := Self;
                catch_display := {| output := output (catch_display st);
                                    old_hook := Some h |} |}
  end.

(** [__exit__] returns [False], so an exception of the body propagates. *)
Definition __exit__ (st : state) : result (bool * state) :=
  match old_hook (catch_display st) with
  | Some h =>
      Return (false, {| namespace := namespace st;
                        displayhook := h;
                        catch_display := catch_display st |})
  | None => Raise AttributeError
  end.

Definition __call__ (self : _CatchDisplay) (v : value) : _CatchDisplay :=
  {| output := v; old_hook := old_hook self |}.

(** [with catch_display: body]: when [__enter__] raises, neither the body
    nor [__exit__] runs. *)
Definition with_catch_display (body : state → result unit * state) (st : state)
  : result unit * state :=
  match __enter__ st with
  | Raise e => (Raise e, st)
  | Return st =>
      let '(r, st) := body st in
      match __exit__ st with
      | Return (suppress, st') =>
          (match r with
           | Raise e => if suppress then Return () else Raise e
           | Return _ => Return ()
           end, st')
      | Raise e => (Raise e, st)
      end
  end.

(** The effect of one channel event of client code.  A call that client
    code makes reaches the capture when the capture is installed; what another
    hook does, or the failure of the call when there is no hook, is part of
    the client code's own run. *)
Definition apply_event (st : state) (ev : event) : state :=
  match ev with
  | Rebind h =>
      {| namespace := namespace st; displayhook := Outer h;
         catch_display := catch_display st |}
  | Delete =>
      {| namespace := namespace st; displayhook := Deleted;
         catch_display := catch_display st |}
  | Report v =>
      match displayhook st with
      | Self =>
          {| namespace := namespace st; displayhook := Self;
             catch_display := __call__ (catch_display st) v |}
      | _ => st
      end
  end.

(** A finished run of client code, applied to the state. *)
Definition perform {A} (r : run A) (st : state) : result A * state :=
  (outcome r,
   foldl apply_event
     {| namespace := globals r; displayhook := displayhook st;
        catch_display := catch_display st |}
     (events r)).

(** [exec(compiled, namespace)] for a unit of mode ['exec']. *)
Definition exec_Module (py : Python) (node : stmt) (st : state)
  : result unit * state :=
  perform (exec_stmt py node (namespace st) (displayhook st)) st.

(** The call [sys.displayhook(v)] made by the interpreter; without the
    attribute it raises [RuntimeError]. *)
Definition print_expr (py : Python) (v : value) (st : state)
  : result unit * state :=
  match displayhook st with
  | Self =>
      (Return (),
       {| namespace := namespace st; displayhook := Self;
          catch_display := __call__ (catch_display st) v |})
  | Outer h =>
      (match call_hook py h v with
       | None => Return ()
       | Some e => Raise e
       end, st)
  | Deleted => (Raise (RuntimeError "lost sys.displayhook"), st)
  end.

(** [exec(compiled, namespace)] for a unit of mode ['single']: the value of
    an expression statement goes to [sys.displayhook].  ([to_eval] holds
    expression statements only.) *)
Definition exec_Interactive (py : Python) (node : stmt) (st : state)
  : result unit * state :=
  match node with
  | Expr _ e =>
      match perform (eval_expr py e (namespace st) (displayhook st)) st with
      | (Return v, st') => print_expr py v st'
      | (Raise e, st') => (Raise e, st')
      end
  | PyStmt _ _ => perform (exec_stmt py node (namespace st) (displayhook st)) st
  end.

(** [for node in nodes: step(node)], left at the first exception. *)
Fixpoint for_in (step : stmt → state → result unit * state)
    (nodes : list stmt) (st : state) : result unit * state :=
  match nodes with
  | [] => (Return (), st)
  | node :: nodes' =>
      match step node st with
      | (Return _, st') => for_in step nodes' st'
      | (Raise e, st') => (Raise e, st')
      end
  end.

(** [tree.body] *)
Definition ast_body (tree : ast) : result (list stmt) :=
  match tree with
  | Module body _ => Return body
  | Interactive body => Return body
  | Expression _ => Raise (TypeError "object is not subscriptable")
  end.

(** The choice of [to_exec] and [to_eval] by the last statement,
    [tree.body[-1]]: [tree.body[:-1]] and [tree.body[-1:]] when it is an
    expression statement, else the whole body and nothing. *)
Definition split_tail (body : list stmt) : result (list stmt * list stmt) :=
  last ← item_last body;
  Return (if isinstance_Expr last
          then (slice body None (Some (-1)), slice body (Some (-1)) None)
          else (body, [])).

(** [exec_then_eval(code, namespace, filename)], called while
    [sys.displayhook] is [hook0].  The result comes with the final state: the
    namespace dict is mutated in place and [sys.displayhook] is process-wide,
    so both are visible to the caller, also after an exception. *)
Definition exec_then_eval (py : Python) (code : text)
    (namespace : option (gmap string value)) (filename : string)
    (hook0 : outer_hook) : result value * state :=
  let namespace := default ∅ namespace in
  let st := {| namespace := namespace; displayhook := Outer hook0;
               catch_display := __init__ |} in
  match
    tree ← ast_parse py (SrcStr code);
    body ← ast_body tree;
    split_tail body
  with
  | Raise e => (Raise e, st)
  | Return (to_exec, to_eval) =>
      match for_in (exec_Module py) to_exec st with
      | (Raise e, st) => (Raise e, st)
      | (Return _, st) =>
          match with_catch_display (for_in (exec_Interactive py) to_eval) st with
          | (Raise e, st) => (Raise e, st)
          | (Return _, st) => (Return (output (catch_display st)), st)
          end
      end
  end.

(** ** Example inputs *)

(** The literal of a docstring [doc], in triple quotes. *)
Definition doc_literal : bytes := [DQ; DQ; DQ] ++ b_ "doc" ++ [DQ; DQ; DQ].

(** The sentinel text written as a one-line string literal with escapes. *)
Definition sentinel_literal : bytes :=
  DQ :: b_ "\nSyntaxError\n===========\nExample script with invalid Python syntax\n"
  ++ [DQ].

Definition doc_then_x : bytes := doc_literal ++ LF :: b_ "x = 1" ++ [LF].
Definition doc_then_x_crlf : bytes :=
  doc_literal ++ CR :: LF :: b_ "x = 1" ++ [CR; LF].
Definition only_x : bytes := b_ "x = 1" ++ [LF].
Definition unbalanced : bytes := b_ "x = (" ++ [LF].
Definition not_utf8 : bytes := [Byte.xff; LF].
Definition sentinel_as_doc : bytes := sentinel_literal ++ [LF].

Definition import_sys_then_rebind : text :=
  u_ "import sys" ++
  NL :: u_ "setattr(sys, 'displayhook', sys.__displayhook__) or 5".
Definition import_sys_then_del : text :=
  u_ "import sys" ++ NL :: u_ "del sys.displayhook".
Definition import_sys_then_delattr : text :=
  u_ "import sys" ++ NL :: u_ "delattr(sys, 'displayhook') or 5".
(** The string literal of [note], a newline, and [__doc__]. *)
Definition note_then___doc__ : text :=
  (Byte.to_N <$> [DQ] ++ b_ "note" ++ [DQ]) ++ NL :: u_ "__doc__".
Definition only_comment : text := u_ "# only a comment" ++ [NL].
Definition x_then_x : text := u_ "x = 1" ++ NL :: u_ "x".
Definition x_then_y : text := u_ "x = 1" ++ NL :: u_ "y = 2".

(** ** A sample runtime

    CPython's answers on the handful of inputs the examples below use; any
    other input is answered with an error that says so.  The namespace gains
    [__builtins__] on its first use by [exec], and a string literal run as a
    unit of mode ['exec'] is the docstring of that unit and binds [__doc__],
    as in CPython. *)
Module Sample.

Definition not_tabulated {A} : result A := Raise (OtherError "not tabulated").

Definition same_bytes (a b : bytes) : bool := bool_decide (a = b).

Definition files (filename : string) : result bytes :=
  if decide (filename = "doc_then_x.py") then Return doc_then_x
  else if decide (filename = "doc_then_x_crlf.py") then Return doc_then_x_crlf
  else if decide (filename = "doc_only.py") then Return doc_literal
  else if decide (filename = "only_x.py") then Return only_x
  else if decide (filename = "empty.py") then Return []
  else if decide (filename = "unbalanced.py") then Return unbalanced
  else if decide (filename = "not_utf8.py") then Return not_utf8
  else if decide (filename = "sentinel_as_doc.py") then Return sentinel_as_doc
  else Raise (OSError "No such file or directory").

Definition parse_bytes (content : bytes) : result ast :=
  if same_bytes content doc_then_x
  then Return (Module [Expr 1 (Str (u_ "doc")); PyStmt 2 "x = 1"] None)
  else if same_bytes content doc_literal
  then Return (Module [Expr 1 (Str (u_ "doc"))] None)
  else if same_bytes content only_x
  then Return (Module [PyStmt 1 "x = 1"] None)
  else if same_bytes content []
  then Return (Module [] None)
  else if same_bytes content sentinel_as_doc
  then Return (Module [Expr 1 (Str SYNTAX_ERROR_DOCSTRING)] None)
  else if same_bytes content unbalanced
  then Raise SyntaxError
  else if same_bytes content not_utf8
  then Raise SyntaxError
  else not_tabulated.

Definition parse_str (code : text) : result ast :=
  if decide (code = [])
  then Return (Module [] None)
  else if decide (code = only_comment)
  then Return (Module [] None)
  else if decide (code = x_then_x)
  then Return (Module [PyStmt 1 "x = 1"; Expr 2 (PyExpr "x")] None)
  else if decide (code = x_then_y)
  then Return (Module [PyStmt 1 "x = 1"; PyStmt 2 "y = 2"] None)
  else if decide (code = import_sys_then_rebind)
  then Return (Module
         [PyStmt 1 "import sys";
          Expr 2 (PyExpr "setattr(sys, 'displayhook', sys.__displayhook__) or 5")]
         None)
  else if decide (code = import_sys_then_del)
  then Return (Module [PyStmt 1 "import sys"; PyStmt 2 "del sys.displayhook"]
                 None)
  else if decide (code = import_sys_then_delattr)
  then Return (Module
         [PyStmt 1 "import sys";
          Expr 2 (PyExpr "delattr(sys, 'displayhook') or 5")]
         None)
  else if decide (code = note_then___doc__)
  then Return (Module [Expr 1 (Str (u_ "note")); Expr 2 (PyExpr "__doc__")] None)
  else if decide (code = Byte.to_N <$> doc_then_x)
  then Return (Module [Expr 1 (Str (u_ "doc")); PyStmt 2 "x = 1"] None)
  else not_tabulated.

Definition parse (src : source) : result ast :=
  match src with
  | SrcBytes content => parse_bytes content
  | SrcStr code => parse_str code
  end.

(** The module objects [builtins] and [sys]. *)
Definition builtins : value := VObject 0.
Definition sys : value := VObject 1.

Definition with_builtins (ns : gmap string value) : gmap string value :=
  match ns !! "__builtins__" with
  | Some _ => ns
  | None => <["__builtins__" := builtins]> ns
  end.

Definition quiet {A} (ns : gmap string value) (r : result A) : run A :=
  {| events := []; globals := ns; outcome := r |}.

(** Statements other than expression statements, by their source. *)
Definition exec_source (src : string) (ns : gmap string value) (h : hook)
  : run unit :=
  let ns := with_builtins ns in
  if decide (src = "x = 1") then quiet (<["x" := VInt 1]> ns) (Return ())
  else if decide (src = "y = 2") then quiet (<["y" := VInt 2]> ns) (Return ())
  else if decide (src = "import sys") then quiet (<["sys" := sys]> ns) (Return ())
  else if decide (src = "del sys.displayhook") then
    match ns !! "sys" with
    | Some _ => {| events := [Delete]; globals := ns; outcome := Return () |}
    | None => quiet ns (Raise (OtherError "NameError"))
    end
  else quiet ns not_tabulated.

(** Expressions other than string literals, by their source. *)
Definition eval_source (src : string) (ns : gmap string value) (h : hook)
  : run value :=
  let ns := with_builtins ns in
  if decide (src = "x") then
    quiet ns (match ns !! "x" with
              | Some v => Return v
              | None => Raise (OtherError "NameError")
              end)
  else if decide (src = "__doc__") then
    quiet ns (match ns !! "__doc__" with
              | Some v => Return v
              | None => not_tabulated
              end)
  else if decide (src = "setattr(sys, 'displayhook', sys.__displayhook__) or 5")
  then
    match ns !! "sys" with
    | Some _ => {| events := [Rebind sys___displayhook__]; globals := ns;
                   outcome := Return (VInt 5) |}
    | None => quiet ns (Raise (OtherError "NameError"))
    end
  else if decide (src = "delattr(sys, 'displayhook') or 5")
  then
    match ns !! "sys" with
    | Some _ => {| events := [Delete]; globals := ns;
                   outcome := Return (VInt 5) |}
    | None => quiet ns (Raise (OtherError "NameError"))
    end
  else quiet ns not_tabulated.

Definition eval_ (e : expr) (ns : gmap string value) (h : hook) : run value :=
  match e with
  | Str s => quiet (with_builtins ns) (Return (VStr s))
  | PyExpr src => eval_source src ns h
  end.

Definition exec_ (node : stmt) (ns : gmap string value) (h : hook) : run unit :=
  match node with
  | Expr _ (Str s) =>
      quiet (<["__doc__" := VStr s]> (with_builtins ns)) (Return ())
  | Expr _ (PyExpr src) =>
      let r := eval_source src ns h in
      {| events := events r; globals := globals r;
         outcome := _ ← outcome r; Return () |}
  | PyStmt _ src => exec_source src ns h
  end.

Definition python : Python :=
  {| read_binary := files;
     ast_parse := parse;
     tokenize_tokenize := λ _, [];
     eval_expr := eval_;
     exec_stmt := exec_;
     call_hook := λ _ _, None |}.

End Sample.

(** A pre-release interpreter (3.7 alpha) on which [Module] nodes carry the
    [docstring] attribute and the docstring statement is not part of the body;
    its answer on the file with the docstring [doc] and [x = 1]. *)
Module Sample37a.

Definition parse (src : source) : result ast :=
  match src with
  | SrcBytes content =>
      if Sample.same_bytes content doc_then_x
      then Return (Module [PyStmt 2 "x = 1"] (Some (Some (u_ "doc"))))
      else Sample.not_tabulated
  | SrcStr _ => Sample.not_tabulated
  end.

Definition python : Python :=
  {| read_binary := Sample.files;
     ast_parse := parse;
     tokenize_tokenize := λ _, [];
     eval_expr := Sample.eval_;
     exec_stmt := Sample.exec_;
     call_hook := λ _ _, None |}.

End Sample37a.

(** ** Notions used in the statements *)

(** The leading docstring statement of a module body: the line number and the
    string of a first statement that is a bare string literal. *)
Definition leading_string_literal (body : list stmt) : option (Z * text) :=
  match body with
  | Expr lineno (Str s) :: _ => Some (lineno, s)
  | _ => None
  end.

(** Parsing the normalized content of [filename] ends in a syntax error. *)
Definition parse_fails (py : Python) (filename : string) : Prop :=
  ∃ content e,
    read_binary py filename = Return content ∧
    ast_parse py (SrcBytes (replace_crlf content)) = Raise e ∧
    isinstance_SyntaxError e = true.

(** The first [n] lines of a text, each with its terminating newline. *)
Fixpoint take_lines (n : nat) (s : text) : text :=
  match s with
  | [] => []
  | c :: s' =>
      match n with
      | O => []
      | S n' => c :: take_lines (if (c =? NL)%N then n' else n) s'
      end
  end.

(** The consumed header: the lines through line [start_line - 1]. *)
Definition header (content : text) (start_line : Z) : text :=
  take_lines (Z.to_nat (start_line - 1)) content.

(** The number of newline characters of a text. *)
Definition newlines (s : text) : nat :=
  length (filter (λ c, c = NL) s).

(** [crlf_variant cr w l]: the content [w] is the content [l] with some of
    its LF line endings written as CRLF.  An LF line ending is a ['\n'] that
    does not follow a ['\r']; [cr] tells whether the byte before the two
    contents is a ['\r']. *)
Inductive crlf_variant : bool → bytes → bytes → Prop :=
  | crlf_nil cr : crlf_variant cr [] []
  | crlf_same cr c w l :
      crlf_variant (Byte.eqb c CR) w l →
      crlf_variant cr (c :: w) (c :: l)
  | crlf_line w l :
      crlf_variant false w l →
      crlf_variant false (CR :: LF :: w) (LF :: l).

(** The hook that [sys.displayhook] holds after a sequence of events. *)
Definition rebound (h : hook) (evs : list event) : hook :=
  foldl (λ h ev, match ev with
                 | Rebind h' => Outer h'
                 | Delete => Deleted
                 | Report _ => h
                 end) h evs.

(** [executes py nodes ns h ns' h']: run one after the other, in order and as
    units of mode ['exec'], the statements [nodes] all complete; they take the
    namespace from [ns] to [ns'] and [sys.displayhook] from [h] to [h']. *)
Inductive executes (py : Python)
  : list stmt → gmap string value → hook → gmap string value → hook → Prop :=
  | executes_nil ns h : executes py [] ns h ns h
  | executes_cons node nodes ns h ns' h' :
      outcome (exec_stmt py node ns h) = Return () →
      executes py nodes (globals (exec_stmt py node ns h))
        (rebound h (events (exec_stmt py node ns h))) ns' h' →
      executes py (node :: nodes) ns h ns' h'.

(** ** Further notions and inputs *)

(** The text after the last newline of a text: its last line, which no
    newline terminates. *)
Definition last_line (s : text) : text :=
  foldl (λ line c, if (c =? NL)%N then [] else line ++ [c]) [] s.

(** Whether a content holds the byte pair CR LF. *)
Fixpoint has_crlf (content : bytes) : bool :=
  match content with
  | [] => false
  | c :: rest =>
      match rest with
      | c' :: _ => (Byte.eqb c CR && Byte.eqb c' LF) || has_crlf rest
      | [] => false
      end
  end.

(** Whether every byte of a content is an ASCII byte. *)
Definition ascii_only (content : bytes) : bool :=
  forallb (λ c, (Byte.to_N c <? 0x80)%N) content.

(** An empty string literal, a newline, [x = 1] and a newline. *)
Definition empty_doc_then_x : bytes := [DQ; DQ; LF] ++ b_ "x = 1" ++ [LF].

Definition x_raise_y : text :=
  u_ "x = 1" ++ NL :: u_ "raise KeyError" ++ NL :: u_ "y = 2".

(** The sample runtime with CPython's answers on two more inputs. *)
Module More.

Definition files (filename : string) : result bytes :=
  if decide (filename = "empty_doc_then_x.py") then Return empty_doc_then_x
  else Sample.files filename.

Definition parse (src : source) : result ast :=
  match src with
  | SrcBytes content =>
      if Sample.same_bytes content empty_doc_then_x
      then Return (Module [Expr 1 (Str []); PyStmt 2 "x = 1"] None)
      else Sample.parse_bytes content
  | SrcStr code =>
      if decide (code = x_raise_y)
      then Return (Module [PyStmt 1 "x = 1"; PyStmt 2 "raise KeyError";
                           PyStmt 3 "y = 2"] None)
      else Sample.parse_str code
  end.

Definition exec_ (node : stmt) (ns : gmap string value) (h : hook) : run unit :=
  match node with
  | PyStmt _ src =>
      if decide (src = "raise KeyError")
      then Sample.quiet (Sample.with_builtins ns) (Raise (OtherError "KeyError"))
      else Sample.exec_ node ns h
  | Expr _ _ => Sample.exec_ node ns h
  end.

Definition python : Python :=
  {| read_binary := files;
     ast_parse := parse;
     tokenize_tokenize := λ _, [];
     eval_expr := Sample.eval_;
     exec_stmt := exec_;
     call_hook := λ _ _, None |}.

End More.

(** ** Source Loader *)

Section loader.
Context (py : Python) (filename : string).

Lemma loader_parsed content node s :
  read_binary py filename = Return content →
  ast_parse py (SrcBytes (replace_crlf content)) = Return node →
  utf8_decode (replace_crlf content) = Some s →
  _parse_source_file py filename = Return (Some node, s).
Proof.
  intros Hread Hparse Hdec. unfold _parse_source_file, bytes_decode.
  rewrite Hread. cbn. rewrite Hparse, Hdec. reflexivity.
Qed.

Lemma loader_syntax_error content e s :
  read_binary py filename = Return content →
  ast_parse py (SrcBytes (replace_crlf content)) = Raise e →
  isinstance_SyntaxError e = true →
  utf8_decode (replace_crlf content) = Some s →
  _parse_source_file py filename = Return (None, s).
Proof.
  intros Hread Hparse He Hdec. unfold _parse_source_file, bytes_decode.
  rewrite Hread. cbn. rewrite Hparse, He, Hdec. reflexivity.
Qed.

Lemma loader_unreadable e :
  read_binary py filename = Raise e →
  _parse_source_file py filename = Raise e.
Proof. intros Hread. unfold _parse_source_file. rewrite Hread. reflexivity. Qed.

Lemma loader_undecodable content :
  read_binary py filename = Return content →
  utf8_decode (replace_crlf content) = None →
  ∃ e, _parse_source_file py filename = Raise e ∧
       (e = UnicodeDecodeError ∨
        ast_parse py (SrcBytes (replace_crlf content)) = Raise e).
Proof.
  intros Hread Hdec. unfold _parse_source_file, bytes_decode.
  rewrite Hread. cbn. rewrite Hdec.
  destruct (ast_parse py _) as [node|e] eqn:Hparse; cbn; [eauto|].
  destruct (isinstance_SyntaxError e); cbn; eauto.
Qed.

(** What the loader returns, read backwards. *)
Lemma loader_returns node s :
  _parse_source_file py filename = Return (node, s) →
  ∃ content,
    read_binary py filename = Return content ∧
    utf8_decode (replace_crlf content) = Some s ∧
    match node with
    | Some tree => ast_parse py (SrcBytes (replace_crlf content)) = Return tree
    | None => ∃ e, ast_parse py (SrcBytes (replace_crlf content)) = Raise e ∧
                   isinstance_SyntaxError e = true
    end.
Proof.
  unfold _parse_source_file, bytes_decode.
  destruct (read_binary py filename) as [content|e]; cbn; [|discriminate].
  intros H. exists content. split; [reflexivity|].
  destruct (ast_parse py _) as [tree|e] eqn:Hparse.
  - destruct (utf8_decode _); cbn in H; [|discriminate].
    injection H as <- <-. auto.
  - destruct (isinstance_SyntaxError e) eqn:He; [|discriminate].
    destruct (utf8_decode _); cbn in H; [|discriminate].
    injection H as <- <-. eauto.
Qed.

End loader.

(** C9. The Source Loader does not raise on a syntax error: for a readable
    file whose normalized content decodes as UTF-8 and raises [SyntaxError]
    (or a subclass) when parsed, it returns an absent tree with the decoded
    text.  An unreadable file raises what reading raised, and a file whose
    normalized content does not decode raises as well: [UnicodeDecodeError],
    unless the parser itself raised something that is no syntax error. *)
Theorem loader_converts_only_syntax_errors (py : Python) (filename : string) :
  (∀ content e s,
     read_binary py filename = Return content →
     ast_parse py (SrcBytes (replace_crlf content)) = Raise e →
     isinstance_SyntaxError e = true →
     utf8_decode (replace_crlf content) = Some s →
     _parse_source_file py filename = Return (None, s)) ∧
  (∀ e, read_binary py filename = Raise e →
        _parse_source_file py filename = Raise e) ∧
  (∀ content,
     read_binary py filename = Return content →
     utf8_decode (replace_crlf content) = None →
     ∃ e, _parse_source_file py filename = Raise e ∧
          (e = UnicodeDecodeError ∨
           ast_parse py (SrcBytes (replace_crlf content)) = Raise e)).
Proof.
  split; [|split].
  - apply loader_syntax_error.
  - apply loader_unreadable.
  - apply loader_undecodable.
Qed.

(** The three cases of C9 on the sample files: a file with an unbalanced
    parenthesis, a missing file, and a file that holds the byte 0xFF. *)
Lemma loader_converts_only_syntax_errors_sample :
  _parse_source_file Sample.python "unbalanced.py"
    = Return (None, u_ "x = (" ++ [NL]) ∧
  _parse_source_file Sample.python "missing.py"
    = Raise (OSError "No such file or directory") ∧
  ∃ e, _parse_source_file Sample.python "not_utf8.py" = Raise e.
Proof.
  destruct (loader_converts_only_syntax_errors Sample.python "unbalanced.py")
    as [Hsyntax _].
  destruct (loader_converts_only_syntax_errors Sample.python "missing.py")
    as (_ & Hread & _).
  destruct (loader_converts_only_syntax_errors Sample.python "not_utf8.py")
    as (_ & _ & Hdecode).
  split; [|split].
  - apply (Hsyntax unbalanced SyntaxError); reflexivity.
  - apply Hread. reflexivity.
  - destruct (Hdecode not_utf8) as (e & He & _); [reflexivity..|]. eauto.
Defined.

(** ** Docstring Splitter *)

Section splitter.
Context (py : Python) (filename : string).

(** After a syntax error the sentinel record is returned. *)
Lemma splitter_syntax_error s :
  _parse_source_file py filename = Return (None, s) →
  get_docstring_and_rest py filename = Return (SYNTAX_ERROR_DOCSTRING, s, 1).
Proof. intros H. unfold get_docstring_and_rest. rewrite H. reflexivity. Qed.

(** A module with a leading string literal, on a runtime whose [Module]
    nodes have no [docstring] attribute. *)
Lemma splitter_leading_literal body lineno d s rest :
  _parse_source_file py filename = Return (Some (Module body None), s) →
  leading_string_literal body = Some (lineno, d) →
  item_last (str_split s NL lineno) = Return rest →
  get_docstring_and_rest py filename =
    match d with
    | [] => Raise (ValueError (missing_docstring_message filename))
    | _ => Return (d, rest, lineno + 1)
    end.
Proof.
  intros H Hlead Hrest. unfold get_docstring_and_rest. rewrite H. cbn.
  destruct body as [|[l [d'|src]|l src] body]; try discriminate.
  injection Hlead as -> ->. cbn. rewrite Hrest. cbn.
  destruct d; reflexivity.
Qed.

(** A module without a leading string literal, on such a runtime. *)
Lemma splitter_no_literal body s :
  _parse_source_file py filename = Return (Some (Module body None), s) →
  leading_string_literal body = None →
  get_docstring_and_rest py filename =
    Raise (ValueError (missing_docstring_message filename)).
Proof.
  intros H Hlead. unfold get_docstring_and_rest. rewrite H. cbn.
  destruct body as [|[l [d'|src]|l src] body]; try discriminate; reflexivity.
Qed.

(** On a runtime whose [Module] nodes do have the attribute, the [try]
    block fails at [BytesIO(content)], because [content] is a [str]. *)
Lemma splitter_attribute body d s :
  _parse_source_file py filename = Return (Some (Module body (Some d)), s) →
  get_docstring_and_rest py filename =
    Raise (TypeError "a bytes-like object is required, not 'str'").
Proof. intros H. unfold get_docstring_and_rest. rewrite H. reflexivity. Qed.

(** The message of the missing-docstring error contains the file path. *)
Lemma message_names_file :
  ∃ before after,
    missing_docstring_message filename = before +:+ filename +:+ after.
Proof.
  exists ("Could not find docstring in file " +:+ String (ascii_of_byte DQ) ""),
         (String (ascii_of_byte DQ)
            ". A docstring is required for the example gallery.").
  reflexivity.
Qed.

(** [str.split] never returns an empty list, so [[-1]] is defined. *)
Lemma split_go_last sep n acc s : ∃ piece, last (split_go sep n acc s) = Some piece.
Proof.
  revert n acc. induction s as [|c s IH]; intros n acc; cbn; [eauto|].
  destruct n as [|n]; [cbn; eauto|].
  destruct (c =? sep)%N; [|apply IH].
  destruct (IH n []) as [piece Hp]. exists piece.
  destruct (split_go sep n [] s) eqn:E; [discriminate|]. exact Hp.
Qed.

Lemma item_last_split s maxsplit :
  ∃ rest, item_last (str_split s NL maxsplit) = Return rest.
Proof.
  unfold item_last, str_split.
  destruct (split_go_last NL (if maxsplit <? 0 then length s else Z.to_nat maxsplit) [] s)
    as [piece ->].
  eauto.
Qed.

End splitter.

(** C4 as claimed, second half: the sentinel docstring would be returned
    for no file but one whose content fails to parse.  It does not hold: a
    file whose own docstring is the sentinel text parses, and the splitter
    returns that text as its docstring. *)
Lemma sentinel_text_from_parsable_file :
  ¬ (∀ py filename rest lineno,
       get_docstring_and_rest py filename
         = Return (SYNTAX_ERROR_DOCSTRING, rest, lineno) →
       parse_fails py filename).
Proof.
  intros H.
  destruct (H Sample.python "sentinel_as_doc.py" [] 2 eq_refl)
    as (content & e & Hread & Hparse & _).
  injection Hread as <-. vm_compute in Hparse. discriminate.
Qed.

(** C4, amended.  For a readable file whose normalized content decodes as
    UTF-8 and fails to parse, the splitter returns the sentinel docstring, the
    decoded normalized content as rest and start line 1, and does not raise.
    Conversely, when the splitter returns the sentinel docstring, either the
    content failed to parse or the file parsed and its own leading string
    literal is the sentinel text. *)
Theorem sentinel_record (py : Python) (filename : string) :
  (∀ content e s,
     read_binary py filename = Return content →
     ast_parse py (SrcBytes (replace_crlf content)) = Raise e →
     isinstance_SyntaxError e = true →
     utf8_decode (replace_crlf content) = Some s →
     get_docstring_and_rest py filename
       = Return (SYNTAX_ERROR_DOCSTRING, s, 1)) ∧
  (∀ rest lineno,
     get_docstring_and_rest py filename
       = Return (SYNTAX_ERROR_DOCSTRING, rest, lineno) →
     parse_fails py filename ∨
     ∃ content body l,
       read_binary py filename = Return content ∧
       ast_parse py (SrcBytes (replace_crlf content))
         = Return (Module body None) ∧
       leading_string_literal body = Some (l, SYNTAX_ERROR_DOCSTRING)).
Proof.
  split.
  - intros content e s Hread Hparse He Hdec.
    apply splitter_syntax_error. by eapply loader_syntax_error.
  - intros rest lineno Hget.
    remember SYNTAX_ERROR_DOCSTRING as sentinel eqn:Hsentinel in Hget.
    destruct (_parse_source_file py filename) as [[node s]|e] eqn:Hload;
      [|unfold get_docstring_and_rest in Hget; rewrite Hload in Hget;
        discriminate].
    destruct (loader_returns _ _ _ _ Hload) as (content & Hread & Hdec & Hnode).
    destruct node as [[body [d|]|body|e]|].
    + rewrite (splitter_attribute _ _ _ _ _ Hload) in Hget. discriminate.
    + right. exists content, body.
      destruct (leading_string_literal body) as [[l d]|] eqn:Hlead.
      * destruct (item_last_split s l) as [rest' Hrest].
        rewrite (splitter_leading_literal _ _ _ _ _ _ _ Hload Hlead Hrest) in Hget.
        destruct d; [discriminate|]. injection Hget as Hd _ _.
        exists l. rewrite Hsentinel in Hd. rewrite <- Hd. auto.
      * rewrite (splitter_no_literal _ _ _ _ Hload Hlead) in Hget. discriminate.
    + unfold get_docstring_and_rest in Hget. rewrite Hload in Hget. discriminate.
    + unfold get_docstring_and_rest in Hget. rewrite Hload in Hget. discriminate.
    + left. destruct Hnode as (e & Hparse & He). by exists content, e.
Qed.

(** C4 on the sample files: the file with an unbalanced parenthesis gives
    the sentinel record, and the sentinel docstring of the file that carries
    the sentinel text as its docstring is that file's own literal. *)
Lemma sentinel_record_sample :
  get_docstring_and_rest Sample.python "unbalanced.py"
    = Return (SYNTAX_ERROR_DOCSTRING, u_ "x = (" ++ [NL], 1) ∧
  (parse_fails Sample.python "sentinel_as_doc.py" ∨
   ∃ content body l,
     read_binary Sample.python "sentinel_as_doc.py" = Return content ∧
     ast_parse Sample.python (SrcBytes (replace_crlf content))
       = Return (Module body None) ∧
     leading_string_literal body = Some (l, SYNTAX_ERROR_DOCSTRING)).
Proof.
  split.
  - apply (proj1 (sentinel_record Sample.python "unbalanced.py")
             unbalanced SyntaxError); reflexivity.
  - apply (proj2 (sentinel_record Sample.python "sentinel_as_doc.py") [] 2).
    reflexivity.
Defined.

(** C5.  For a readable, decodable file that parses to a module whose first
    statement is not a bare string literal (the empty module included), the
    splitter raises the missing-docstring [ValueError], and the message
    contains the file path.  The module node is one without a [docstring]
    attribute, as in every released CPython. *)
Theorem missing_docstring_raises (py : Python) (filename : string)
    (content : bytes) (body : list stmt) (s : text) :
  read_binary py filename = Return content →
  ast_parse py (SrcBytes (replace_crlf content)) = Return (Module body None) →
  utf8_decode (replace_crlf content) = Some s →
  leading_string_literal body = None →
  get_docstring_and_rest py filename
    = Raise (ValueError (missing_docstring_message filename)) ∧
  ∃ before after,
    missing_docstring_message filename = before +:+ filename +:+ after.
Proof.
  intros Hread Hparse Hdec Hlead. split; [|apply message_names_file].
  eapply splitter_no_literal; [|exact Hlead]. by eapply loader_parsed.
Qed.

(** C5 on the file that holds only [x = 1]. *)
Lemma missing_docstring_raises_only_x :
  get_docstring_and_rest Sample.python "only_x.py"
    = Raise (ValueError (missing_docstring_message "only_x.py")) ∧
  ∃ before after,
    missing_docstring_message "only_x.py" = before +:+ "only_x.py" +:+ after.
Proof.
  apply (missing_docstring_raises Sample.python "only_x.py" only_x
           [PyStmt 1 "x = 1"] (u_ "x = 1" ++ [NL])); reflexivity.
Defined.

(** The empty file is refused in the same way. *)
Example missing_docstring_raises_empty :
  get_docstring_and_rest Sample.python "empty.py"
    = Raise (ValueError (missing_docstring_message "empty.py")).
Proof. reflexivity. Qed.

(** The [try] block on a runtime whose [Module] nodes carry the [docstring]
    attribute: for every readable, decodable file that parses to a module,
    the splitter raises the [TypeError] of [BytesIO(content)], whatever the
    docstring, because [content] has been decoded to a [str]. *)
Theorem attribute_path_raises_TypeError (py : Python) (filename : string)
    (content : bytes) (body : list stmt) (d : option text) (s : text) :
  read_binary py filename = Return content →
  ast_parse py (SrcBytes (replace_crlf content))
    = Return (Module body (Some d)) →
  utf8_decode (replace_crlf content) = Some s →
  get_docstring_and_rest py filename
    = Raise (TypeError "a bytes-like object is required, not 'str'").
Proof.
  intros Hread Hparse Hdec.
  apply (splitter_attribute py filename body d s). by eapply loader_parsed.
Qed.

Lemma attribute_path_raises_TypeError_sample :
  get_docstring_and_rest Sample37a.python "doc_then_x.py"
    = Raise (TypeError "a bytes-like object is required, not 'str'").
Proof.
  apply (attribute_path_raises_TypeError Sample37a.python "doc_then_x.py"
           doc_then_x [PyStmt 2 "x = 1"] (Some (u_ "doc"))
           (Byte.to_N <$> doc_then_x)); reflexivity.
Defined.

(** C7.  For the file whose content is the docstring literal of [doc], a
    newline, [x = 1] and a newline, the splitter returns the docstring [doc],
    the rest [x = 1] with its newline, and start line 2.  The parser's answer
    on that content is a module whose first statement is the string literal,
    on line 1. *)
Theorem doc_then_x_split (py : Python) (filename : string) (body : list stmt) :
  read_binary py filename = Return doc_then_x →
  ast_parse py (SrcBytes doc_then_x)
    = Return (Module (Expr 1 (Str (u_ "doc")) :: body) None) →
  get_docstring_and_rest py filename
    = Return (u_ "doc", u_ "x = 1" ++ [NL], 2).
Proof.
  intros Hread Hparse.
  apply (splitter_leading_literal py filename
           (Expr 1 (Str (u_ "doc")) :: body) 1 (u_ "doc")
           (u_ (String.string_of_list_byte doc_literal) ++ NL :: u_ "x = 1" ++ [NL]));
    [|reflexivity..].
  eapply loader_parsed; [exact Hread|exact Hparse|reflexivity].
Qed.

(** C7 on the sample runtime. *)
Lemma doc_then_x_split_sample :
  get_docstring_and_rest Sample.python "doc_then_x.py"
    = Return (u_ "doc", u_ "x = 1" ++ [NL], 2).
Proof.
  apply (doc_then_x_split Sample.python "doc_then_x.py" [PyStmt 2 "x = 1"]);
    reflexivity.
Defined.

(** ** Line endings *)

Lemma replace_crlf_pair c c' rest :
  replace_crlf (c :: c' :: rest) =
    if Byte.eqb c CR && Byte.eqb c' LF then LF :: replace_crlf rest
    else c :: replace_crlf (c' :: rest).
Proof. reflexivity. Qed.

Lemma replace_crlf_other c rest :
  Byte.eqb c CR = false → replace_crlf (c :: rest) = c :: replace_crlf rest.
Proof.
  intros Hc. destruct rest as [|c' rest]; [reflexivity|].
  rewrite replace_crlf_pair, Hc. reflexivity.
Qed.

(** Normalization sends a content and its CRLF variant to the same bytes.
    The second part covers a pair that follows a ['\r']. *)
Lemma replace_crlf_variant cr w l :
  crlf_variant cr w l →
  replace_crlf w = replace_crlf l ∧
  (cr = true → replace_crlf (CR :: w) = replace_crlf (CR :: l)).
Proof.
  induction 1 as [cr|cr c w l Hwl [IH IHcr]|w l Hwl [IH _]].
  - auto.
  - assert (Hc : replace_crlf (c :: w) = replace_crlf (c :: l)).
    { destruct (Byte.eqb c CR) eqn:Ec.
      - apply Byte.byte_dec_bl in Ec as ->. auto.
      - rewrite !replace_crlf_other by done. by rewrite IH. }
    split; [exact Hc|]. intros _.
    rewrite !replace_crlf_pair.
    destruct (Byte.eqb CR CR && Byte.eqb c LF); [by rewrite IH|by rewrite Hc].
  - split; [|discriminate].
    rewrite replace_crlf_pair. cbn [Byte.eqb andb].
    change (Byte.eqb CR CR && Byte.eqb LF LF) with true. cbn iota.
    rewrite replace_crlf_other by reflexivity. by rewrite IH.
Qed.

Lemma loader_same_content py f1 f2 c1 c2 :
  read_binary py f1 = Return c1 →
  read_binary py f2 = Return c2 →
  replace_crlf c1 = replace_crlf c2 →
  _parse_source_file py f1 = _parse_source_file py f2.
Proof.
  intros H1 H2 Hc. unfold _parse_source_file. rewrite H1, H2. cbn.
  by rewrite Hc.
Qed.

(** The file name reaches the result of the splitter only through the loader
    and the message of the missing-docstring error. *)
Lemma splitter_same_loader py f1 f2 t :
  _parse_source_file py f1 = _parse_source_file py f2 →
  get_docstring_and_rest py f1 = Return t →
  get_docstring_and_rest py f2 = Return t.
Proof.
  unfold get_docstring_and_rest. intros ->.
  destruct (_parse_source_file py f2) as [[[[body [d|]|body|e]|] s]|e];
    cbn; try done.
  destruct (docstring_from_body body s) as [[[d r] l]|e]; cbn; try done.
  by destruct (falsy d).
Qed.

(** C8.  Two files, the content of one being the content of the other with
    some LF line endings written as CRLF, give the same record: whatever
    triple the splitter returns for one it returns for the other (and when
    it raises for one it raises for the other). *)
Theorem crlf_files_split_alike (py : Python) (f1 f2 : string) (w l : bytes) :
  crlf_variant false w l →
  read_binary py f1 = Return w →
  read_binary py f2 = Return l →
  ∀ t, get_docstring_and_rest py f1 = Return t ↔
       get_docstring_and_rest py f2 = Return t.
Proof.
  intros Hwl H1 H2 t.
  assert (Hload : _parse_source_file py f1 = _parse_source_file py f2).
  { eapply loader_same_content; [done..|]. by apply (replace_crlf_variant false). }
  split; apply splitter_same_loader; done.
Qed.

(** C8 on the two sample files with the docstring [doc] and [x = 1]. *)
Lemma crlf_files_split_alike_sample :
  get_docstring_and_rest Sample.python "doc_then_x_crlf.py"
    = Return (u_ "doc", u_ "x = 1" ++ [NL], 2) ↔
  get_docstring_and_rest Sample.python "doc_then_x.py"
    = Return (u_ "doc", u_ "x = 1" ++ [NL], 2).
Proof.
  apply (crlf_files_split_alike Sample.python
           "doc_then_x_crlf.py" "doc_then_x.py" doc_then_x_crlf doc_then_x);
    [|reflexivity..].
  unfold doc_then_x_crlf, doc_then_x, doc_literal. cbn.
  repeat first [apply crlf_nil | apply crlf_line | apply crlf_same; cbn].
Defined.

(** Without the condition on ['\r'] the two contents normalize differently:
    [x\r\r\n] becomes [x\r\n], which becomes [x\n]. *)
Example replace_crlf_once :
  replace_crlf (b_ "x" ++ [CR; CR; LF]) = b_ "x" ++ [CR; LF] ∧
  replace_crlf (b_ "x" ++ [CR; LF]) = b_ "x" ++ [LF].
Proof. split; reflexivity. Qed.

(** ** Round trip *)

Lemma take_lines_0 s : take_lines 0 s = [].
Proof. by destruct s. Qed.

Lemma split_go_0 sep acc s : split_go sep 0 acc s = [rev acc ++ s].
Proof. destruct s; cbn; [by rewrite app_nil_r|done]. Qed.

(** With at least [n] newlines in [s], the last piece of a split at [n]
    newlines is what follows the first [n] lines. *)
Lemma newlines_cons c s :
  newlines (c :: s) = if (c =? NL)%N then S (newlines s) else newlines s.
Proof.
  unfold newlines. rewrite filter_cons.
  destruct (N.eqb_spec c NL); [by rewrite decide_True|by rewrite decide_False].
Qed.

Lemma take_lines_split_go n acc s piece :
  (1 ≤ n ≤ newlines s)%nat →
  last (split_go NL n acc s) = Some piece →
  take_lines n s ++ piece = s.
Proof.
  revert n acc. induction s as [|c s IH]; intros n acc [Hn Hs] Hlast.
  { change (newlines []) with O in Hs. lia. }
  destruct n as [|n]; [lia|]. cbn in Hlast |- *.
  rewrite newlines_cons in Hs.
  destruct (c =? NL)%N.
  - f_equal.
    assert (last (split_go NL n [] s) = Some piece) as Hpiece.
    { destruct (split_go_last NL n [] s) as [p Hp].
      destruct (split_go NL n [] s); [discriminate|exact Hlast]. }
    destruct n as [|n].
    + rewrite split_go_0 in Hpiece. injection Hpiece as <-.
      by rewrite take_lines_0.
    + apply (IH (S n) []); [lia|done].
  - f_equal. apply (IH (S n) (c :: acc)); [lia|done].
Qed.

(** The round trip holds when the line on which the docstring ends is
    terminated: if the content has at least [lineno] newlines, the header
    through line [start_line - 1] followed by [rest] is the content. *)
Theorem roundtrip_terminated (py : Python) (filename : string)
    (content : bytes) (body : list stmt) (s : text) (lineno : Z) (d : text) :
  read_binary py filename = Return content →
  ast_parse py (SrcBytes (replace_crlf content)) = Return (Module body None) →
  utf8_decode (replace_crlf content) = Some s →
  leading_string_literal body = Some (lineno, d) →
  0 ≤ lineno →
  (Z.to_nat lineno ≤ newlines s)%nat →
  ∀ docstring rest start_line,
    get_docstring_and_rest py filename = Return (docstring, rest, start_line) →
    header s start_line ++ rest = s.
Proof.
  intros Hread Hparse Hdec Hlead Hpos Hnl docstring rest start_line Hget.
  pose proof (loader_parsed _ _ _ _ _ Hread Hparse Hdec) as Hload.
  destruct (item_last_split s lineno) as [rest' Hrest].
  rewrite (splitter_leading_literal _ _ _ _ _ _ _ Hload Hlead Hrest) in Hget.
  destruct d as [|c d]; [discriminate|]. injection Hget as _ <- <-.
  unfold header. replace (lineno + 1 - 1) with lineno by lia.
  unfold item_last, str_split in Hrest.
  destruct (Z.ltb_spec lineno 0) as [|_]; [lia|].
  destruct (last _) as [piece|] eqn:Hlast; [|discriminate].
  injection Hrest as ->.
  destruct (Z.to_nat lineno) as [|k] eqn:Hk.
  - rewrite split_go_0 in Hlast. injection Hlast as <-. by rewrite take_lines_0.
  - apply (take_lines_split_go (S k) []); [lia|done].
Qed.

(** The round trip on the sample file with the docstring [doc] and [x = 1]. *)
Lemma roundtrip_terminated_sample :
  header (Byte.to_N <$> doc_then_x) 2 ++ (u_ "x = 1" ++ [NL])
    = Byte.to_N <$> doc_then_x.
Proof.
  apply (roundtrip_terminated Sample.python "doc_then_x.py" doc_then_x
           [Expr 1 (Str (u_ "doc")); PyStmt 2 "x = 1"]
           (Byte.to_N <$> doc_then_x) 1 (u_ "doc")) with (docstring := u_ "doc");
    try reflexivity.
  - lia.
  - vm_compute. lia.
Defined.

(** C3 at a file that ends within the line of its docstring: the content
    is the docstring literal of [doc] with no newline after it.  The splitter
    returns the whole content as rest, so the header through line 1 followed
    by rest is the content twice. *)
Theorem rest_repeats_unterminated_docstring (py : Python) (filename : string) :
  read_binary py filename = Return doc_literal →
  ast_parse py (SrcBytes doc_literal)
    = Return (Module [Expr 1 (Str (u_ "doc"))] None) →
  get_docstring_and_rest py filename
    = Return (u_ "doc", Byte.to_N <$> doc_literal, 2) ∧
  header (Byte.to_N <$> doc_literal) 2 ++ (Byte.to_N <$> doc_literal)
    = (Byte.to_N <$> doc_literal) ++ (Byte.to_N <$> doc_literal) ∧
  header (Byte.to_N <$> doc_literal) 2 ++ (Byte.to_N <$> doc_literal)
    ≠ Byte.to_N <$> doc_literal.
Proof.
  intros Hread Hparse. split; [|split; [reflexivity|discriminate]].
  apply (splitter_leading_literal py filename
           [Expr 1 (Str (u_ "doc"))] 1 (u_ "doc") (Byte.to_N <$> doc_literal));
    [|reflexivity..].
  eapply loader_parsed; [exact Hread|exact Hparse|reflexivity].
Qed.

(** C3's failing input on the sample runtime. *)
Lemma rest_repeats_unterminated_docstring_sample :
  get_docstring_and_rest Sample.python "doc_only.py"
    = Return (u_ "doc", Byte.to_N <$> doc_literal, 2) ∧
  header (Byte.to_N <$> doc_literal) 2 ++ (Byte.to_N <$> doc_literal)
    = (Byte.to_N <$> doc_literal) ++ (Byte.to_N <$> doc_literal) ∧
  header (Byte.to_N <$> doc_literal) 2 ++ (Byte.to_N <$> doc_literal)
    ≠ Byte.to_N <$> doc_literal.
Proof.
  apply (rest_repeats_unterminated_docstring Sample.python "doc_only.py");
    reflexivity.
Defined.

(** ** Display Capture *)

Lemma apply_event_old_hook st ev :
  old_hook (catch_display (apply_event st ev)) = old_hook (catch_display st).
Proof. destruct ev as [v|h|]; cbn; [destruct (displayhook st)|..]; reflexivity. Qed.

Lemma events_old_hook evs st :
  old_hook (catch_display (foldl apply_event st evs)) = old_hook (catch_display st).
Proof.
  revert st. induction evs as [|ev evs IH]; intros st; cbn; [done|].
  by rewrite IH, apply_event_old_hook.
Qed.

Lemma perform_old_hook {A} (r : run A) st :
  old_hook (catch_display (perform r st).2) = old_hook (catch_display st).
Proof. unfold perform. cbn. by rewrite events_old_hook. Qed.

Lemma print_expr_old_hook py v st :
  old_hook (catch_display (print_expr py v st).2) = old_hook (catch_display st).
Proof. unfold print_expr. by destruct (displayhook st). Qed.

Lemma exec_Interactive_old_hook py node st :
  old_hook (catch_display (exec_Interactive py node st).2)
    = old_hook (catch_display st).
Proof.
  destruct node as [l e|l src]; cbn [exec_Interactive];
    [|apply perform_old_hook].
  pose proof (perform_old_hook (eval_expr py e (namespace st) (displayhook st)) st)
    as Hperform.
  destruct (perform _ st) as [[v|e'] st']; cbn in *; [|done].
  by rewrite print_expr_old_hook.
Qed.

Lemma for_in_old_hook step nodes st :
  (∀ node st0, old_hook (catch_display (step node st0).2)
                 = old_hook (catch_display st0)) →
  old_hook (catch_display (for_in step nodes st).2) = old_hook (catch_display st).
Proof.
  intros Hstep. revert st. induction nodes as [|node nodes IH]; intros st; [done|].
  cbn. pose proof (Hstep node st) as Hnode.
  destruct (step node st) as [[[]|e] st']; cbn in *; [|done].
  by rewrite IH.
Qed.

(** What [__enter__] leaves when it returns, and when it raises. *)
Lemma enter_returns st st1 :
  __enter__ st = Return st1 →
  displayhook st ≠ Deleted ∧
  st1 = {| namespace := namespace st; displayhook := Self;
           catch_display := {| output := output (catch_display st);
                               old_hook := Some (displayhook st) |} |}.
Proof. unfold __enter__. destruct (displayhook st); by intros [= <-]. Qed.

Lemma enter_present st :
  displayhook st ≠ Deleted →
  __enter__ st
    = Return {| namespace := namespace st; displayhook := Self;
                catch_display := {| output := output (catch_display st);
                                    old_hook := Some (displayhook st) |} |}.
Proof. unfold __enter__. by destruct (displayhook st). Qed.

(** The scope, once entered, around a body that leaves the [old_hook]
    attribute alone: the hook is restored and the outcome of the body is the
    outcome of the [with] statement. *)
Lemma with_catch_display_frame body st st1 :
  __enter__ st = Return st1 →
  (∀ st0, old_hook (catch_display (body st0).2) = old_hook (catch_display st0)) →
  displayhook (with_catch_display body st).2 = displayhook st ∧
  namespace (with_catch_display body st).2 = namespace (body st1).2 ∧
  output (catch_display (with_catch_display body st).2)
    = output (catch_display (body st1).2) ∧
  (with_catch_display body st).1 = (body st1).1.
Proof.
  intros Henter Hframe. unfold with_catch_display. rewrite Henter.
  destruct (enter_returns st st1 Henter) as [_ Hst1].
  pose proof (Hframe st1) as Hold.
  destruct (body st1) as [r st2]. cbn in Hold |- *.
  unfold __exit__. rewrite Hold, Hst1. cbn.
  repeat split. by destruct r as [[]|e].
Qed.

(** C6.  Around the evaluation of any statements by any client code, the
    Display Capture scope leaves [sys.displayhook] as it found it, whether the
    body completes or raises, and an exception of the body is the outcome of
    the scope.  When [sys] has no [displayhook] on entry, [__enter__] raises
    before anything is assigned: the body does not run and nothing changes. *)
Theorem displayhook_restored (py : Python) (nodes : list stmt) (st : state) :
  displayhook (with_catch_display (for_in (exec_Interactive py) nodes) st).2
    = displayhook st ∧
  match __enter__ st with
  | Return st1 =>
      ∀ e, (for_in (exec_Interactive py) nodes st1).1 = Raise e →
           (with_catch_display (for_in (exec_Interactive py) nodes) st).1
             = Raise e
  | Raise e =>
      with_catch_display (for_in (exec_Interactive py) nodes) st = (Raise e, st)
  end.
Proof.
  destruct (__enter__ st) as [st1|e0] eqn:Henter.
  - destruct (with_catch_display_frame (for_in (exec_Interactive py) nodes)
                st st1 Henter) as (Hhook & _ & _ & Hout).
    { intros st0. apply for_in_old_hook. intros. apply exec_Interactive_old_hook. }
    split; [exact Hhook|]. intros e He. by rewrite Hout.
  - unfold with_catch_display. by rewrite Henter.
Qed.

(** C6 on the sample runtime, with a previous hook that is not the default
    one: the name [x] is unbound, so the evaluation raises; the hook is back
    and the exception is the outcome. *)
Lemma displayhook_restored_sample :
  displayhook
    (with_catch_display
       (for_in (exec_Interactive Sample.python) [Expr 1 (PyExpr "x")])
       {| namespace := ∅; displayhook := Outer (other_hook 7);
          catch_display := __init__ |}).2
    = Outer (other_hook 7) ∧
  (with_catch_display
     (for_in (exec_Interactive Sample.python) [Expr 1 (PyExpr "x")])
     {| namespace := ∅; displayhook := Outer (other_hook 7);
        catch_display := __init__ |}).1
    = Raise (OtherError "NameError").
Proof.
  destruct (displayhook_restored Sample.python [Expr 1 (PyExpr "x")]
              {| namespace := ∅; displayhook := Outer (other_hook 7);
                 catch_display := __init__ |}) as [Hhook Hraise].
  split; [exact Hhook|]. apply Hraise. reflexivity.
Defined.

(** ** Split-Execute *)

Section split_execute.
Context (py : Python).

(** While the capture is not installed the events of client code reach no
    [_CatchDisplay] instance: they only move [sys.displayhook], and never to
    the capture. *)
Lemma events_not_self evs ns h cd :
  h ≠ Self →
  foldl apply_event
    {| namespace := ns; displayhook := h; catch_display := cd |} evs
  = {| namespace := ns; displayhook := rebound h evs; catch_display := cd |} ∧
  rebound h evs ≠ Self.
Proof.
  revert h. induction evs as [|[v|h0|] evs IH]; intros h Hh; cbn.
  - done.
  - destruct h; [apply IH; done|done|apply IH; done].
  - by apply IH.
  - by apply IH.
Qed.

Lemma for_in_executes nodes ns h ns' h' cd :
  h ≠ Self →
  executes py nodes ns h ns' h' →
  for_in (exec_Module py) nodes
    {| namespace := ns; displayhook := h; catch_display := cd |}
  = (Return (),
     {| namespace := ns'; displayhook := h'; catch_display := cd |}) ∧
  h' ≠ Self.
Proof.
  intros Hh Hexec.
  induction Hexec as [ns h|node nodes ns h ns' h' Hout Hexec IH]; [done|].
  destruct (events_not_self (events (exec_stmt py node ns h))
              (globals (exec_stmt py node ns h)) h cd Hh) as [Hev Hh1].
  assert (Hstep :
    exec_Module py node
      {| namespace := ns; displayhook := h; catch_display := cd |}
    = (Return (),
       {| namespace := globals (exec_stmt py node ns h);
          displayhook := rebound h (events (exec_stmt py node ns h));
          catch_display := cd |})).
  { unfold exec_Module, perform. cbn. by rewrite Hout, Hev. }
  cbn [for_in]. rewrite Hstep. by apply IH.
Qed.

(** Under the capture, events that neither assign nor delete
    [sys.displayhook] leave the capture installed. *)
Lemma events_report_only evs st :
  (∀ h, Rebind h ∉ evs) →
  Delete ∉ evs →
  displayhook st = Self →
  displayhook (foldl apply_event st evs) = Self ∧
  namespace (foldl apply_event st evs) = namespace st ∧
  old_hook (catch_display (foldl apply_event st evs))
    = old_hook (catch_display st).
Proof.
  revert st. induction evs as [|ev evs IH]; intros st Hno Hdel Hself; [done|].
  cbn. destruct ev as [v|h|];
    [|exfalso; apply (Hno h); left|exfalso; apply Hdel; left].
  assert (Hno' : ∀ h, Rebind h ∉ evs).
  { intros h Hin. apply (Hno h). by right. }
  assert (Hdel' : Delete ∉ evs).
  { intros Hin. apply Hdel. by right. }
  cbn. rewrite Hself.
  destruct (IH {| namespace := namespace st; displayhook := Self;
                  catch_display := __call__ (catch_display st) v |}
              Hno' Hdel' eq_refl) as (-> & -> & ->).
  done.
Qed.

End split_execute.

Lemma slice_init {A} (l : list A) (x : A) :
  slice (l ++ [x]) None (Some (-1)) = l.
Proof.
  unfold slice, clip. cbn. rewrite length_app. cbn.
  replace (Z.to_nat (Z.max 0 (Z.of_nat (length l + 1) + -1)) - 0)%nat
    with (length l) by lia.
  by rewrite drop_0, take_app_length.
Qed.

Lemma slice_last {A} (l : list A) (x : A) :
  slice (l ++ [x]) (Some (-1)) None = [x].
Proof.
  unfold slice, clip. cbn. rewrite length_app. cbn.
  replace (Z.to_nat (Z.max 0 (Z.of_nat (length l + 1) + -1))) with (length l)
    by lia.
  rewrite drop_app_length. cbn. by replace (length l + 1 - length l)%nat with 1%nat by lia.
Qed.

Lemma item_last_snoc {A} (l : list A) (x : A) : item_last (l ++ [x]) = Return x.
Proof. unfold item_last. by rewrite last_snoc. Qed.

Lemma split_tail_expression body l E :
  split_tail (body ++ [Expr l E]) = Return (body, [Expr l E]).
Proof.
  unfold split_tail. rewrite item_last_snoc. cbn [mbind result_bind isinstance_Expr].
  by rewrite slice_init, slice_last.
Qed.

Lemma split_tail_statement body node :
  last body = Some node →
  isinstance_Expr node = false →
  split_tail body = Return (body, []).
Proof.
  intros Hlast Hnode. unfold split_tail, item_last. rewrite Hlast.
  cbn [mbind result_bind]. by rewrite Hnode.
Qed.

(** C10.  For a source text that parses to a module with no statement,
    [exec_then_eval] raises [IndexError] when it selects the last statement;
    nothing has been executed. *)
Theorem empty_module_raises_IndexError (py : Python) (code : text)
    (namespace : option (gmap string value)) (filename : string)
    (hook0 : outer_hook) (d : option (option text)) :
  ast_parse py (SrcStr code) = Return (Module [] d) →
  exec_then_eval py code namespace filename hook0
    = (Raise IndexError,
       {| namespace := default ∅ namespace; displayhook := Outer hook0;
          catch_display := __init__ |}).
Proof. intros Hparse. unfold exec_then_eval. rewrite Hparse. reflexivity. Qed.

(** C10 on the empty string. *)
Lemma empty_module_raises_IndexError_sample :
  exec_then_eval Sample.python [] None "<string>" sys___displayhook__
    = (Raise IndexError,
       {| namespace := ∅; displayhook := Outer sys___displayhook__;
          catch_display := __init__ |}).
Proof.
  apply (empty_module_raises_IndexError Sample.python [] None "<string>"
           sys___displayhook__ None).
  reflexivity.
Defined.

(** A text that holds only a comment has no statement either. *)
Example comment_only_raises_IndexError :
  (exec_then_eval Sample.python only_comment None "<string>"
     sys___displayhook__).1 = Raise IndexError.
Proof. reflexivity. Qed.

(** C2 as claimed: whenever the statements of a text without a tail all
    complete, the call would return [None].  It does not hold: the capture is
    entered also when there is nothing to evaluate, and entering reads
    [sys.displayhook]; after [import sys] and [del sys.displayhook] both
    statements have completed and the call raises [AttributeError]. *)
Lemma None_not_returned_when_hook_deleted :
  ¬ (∀ py code ns filename hook0 body d node ns' h',
       ast_parse py (SrcStr code) = Return (Module body d) →
       last body = Some node →
       isinstance_Expr node = false →
       executes py body ns (Outer hook0) ns' h' →
       (exec_then_eval py code (Some ns) filename hook0).1 = Return VNone).
Proof.
  intros H.
  specialize (H Sample.python import_sys_then_del ∅ "<string>"
                sys___displayhook__
                [PyStmt 1 "import sys"; PyStmt 2 "del sys.displayhook"] None
                (PyStmt 2 "del sys.displayhook")
                (<["sys" := Sample.sys]> (Sample.with_builtins ∅))
                Deleted eq_refl eq_refl eq_refl).
  assert (Hcall : (exec_then_eval Sample.python import_sys_then_del (Some ∅)
                     "<string>" sys___displayhook__).1 = Raise AttributeError)
    by reflexivity.
  rewrite H in Hcall; [discriminate|].
  apply executes_cons; [reflexivity|].
  apply executes_cons; [reflexivity|]. apply executes_nil.
Qed.

(** C2, amended.  For a source text whose last statement is not an
    expression statement: when its statements all complete, run in order on
    the supplied namespace, and [sys.displayhook] exists when they have run,
    [exec_then_eval] returns [None]; the namespace is the one those statements
    leave, and [sys.displayhook] is as they leave it. *)
Theorem no_tail_returns_None (py : Python) (code : text)
    (ns : gmap string value) (filename : string) (hook0 : outer_hook)
    (body : list stmt) (d : option (option text)) (node : stmt)
    (ns' : gmap string value) (h' : hook) :
  ast_parse py (SrcStr code) = Return (Module body d) →
  last body = Some node →
  isinstance_Expr node = false →
  executes py body ns (Outer hook0) ns' h' →
  h' ≠ Deleted →
  exec_then_eval py code (Some ns) filename hook0
    = (Return VNone,
       {| namespace := ns'; displayhook := h';
          catch_display := {| output := VNone; old_hook := Some h' |} |}).
Proof.
  intros Hparse Hlast Hnode Hexec Hh'. unfold exec_then_eval.
  rewrite Hparse. cbn [mbind result_bind ast_body].
  change (default ∅ (Some ns)) with ns.
  rewrite (split_tail_statement body node Hlast Hnode).
  destruct (for_in_executes py body ns (Outer hook0) ns' h' __init__)
    as [-> _]; [done..|].
  unfold with_catch_display. rewrite enter_present by done. reflexivity.
Qed.

(** C2 on the text [x = 1], newline, [y = 2]. *)
Lemma no_tail_returns_None_sample :
  exec_then_eval Sample.python x_then_y (Some ∅) "<string>" sys___displayhook__
    = (Return VNone,
       {| namespace :=
            <["y" := VInt 2]> (<["x" := VInt 1]> (Sample.with_builtins ∅));
          displayhook := Outer sys___displayhook__;
          catch_display :=
            {| output := VNone; old_hook := Some (Outer sys___displayhook__) |} |}).
Proof.
  apply (no_tail_returns_None Sample.python x_then_y ∅ "<string>"
           sys___displayhook__ [PyStmt 1 "x = 1"; PyStmt 2 "y = 2"] None
           (PyStmt 2 "y = 2")); try reflexivity.
  - apply executes_cons; [reflexivity|].
    apply executes_cons; [reflexivity|].
    apply executes_nil.
  - discriminate.
Defined.

(** After a docstring statement the namespace holds [__doc__]: on the text
    with the docstring [doc] and [x = 1] the call returns [None] and leaves
    [__builtins__], [__doc__] and [x]. *)
Example docstring_statement_binds___doc__ :
  (exec_then_eval Sample.python (Byte.to_N <$> doc_then_x) (Some ∅) "<string>"
     sys___displayhook__).1 = Return VNone ∧
  namespace (exec_then_eval Sample.python (Byte.to_N <$> doc_then_x) (Some ∅)
               "<string>" sys___displayhook__).2
    = <["x" := VInt 1]>
        (<["__doc__" := VStr (u_ "doc")]> (Sample.with_builtins ∅)).
Proof. split; reflexivity. Qed.

(** C1 as claimed: whenever the statements before the tail complete and
    the tail expression evaluates to [v], the call would return [v].  It does
    not hold: a tail expression that assigns [sys.displayhook] while it is
    evaluated takes the capture out of the channel, its value goes to the hook
    it installed, and the call returns [None]. *)
Lemma tail_value_lost_when_hook_rebound :
  ¬ (∀ py code ns filename hook0 body l E d ns1 h1 v,
       ast_parse py (SrcStr code) = Return (Module (body ++ [Expr l E]) d) →
       executes py body ns (Outer hook0) ns1 h1 →
       outcome (eval_expr py E ns1 Self) = Return v →
       (exec_then_eval py code (Some ns) filename hook0).1 = Return v).
Proof.
  intros H.
  specialize (H Sample.python import_sys_then_rebind ∅ "<string>"
                sys___displayhook__ [PyStmt 1 "import sys"] 2
                (PyExpr "setattr(sys, 'displayhook', sys.__displayhook__) or 5")
                None
                (<["sys" := Sample.sys]> (Sample.with_builtins ∅))
                (Outer sys___displayhook__) (VInt 5) eq_refl).
  assert (Hcall : (exec_then_eval Sample.python import_sys_then_rebind (Some ∅)
                     "<string>" sys___displayhook__).1 = Return VNone)
    by reflexivity.
  rewrite H in Hcall; [discriminate| |reflexivity].
  apply executes_cons; [reflexivity|]. apply executes_nil.
Qed.

(** A tail that deletes [sys.displayhook] loses its value too: the
    interpreter finds no hook to report to and raises [RuntimeError]; the
    scope puts the previous hook back. *)
Example tail_value_lost_when_hook_deleted :
  (exec_then_eval Sample.python import_sys_then_delattr (Some ∅) "<string>"
     sys___displayhook__).1 = Raise (RuntimeError "lost sys.displayhook") ∧
  displayhook (exec_then_eval Sample.python import_sys_then_delattr (Some ∅)
                 "<string>" sys___displayhook__).2 = Outer sys___displayhook__.
Proof. split; reflexivity. Qed.

(** C1, amended.  For a source text whose last statement is an expression
    statement [E]: when the statements before it all complete, run in order
    on the supplied namespace, and leave a [sys.displayhook] in place, and
    [E], evaluated in the namespace they leave and under the capture, yields
    [v] without assigning or deleting [sys.displayhook], then [exec_then_eval]
    returns [v]; the namespace is the one the evaluation leaves and
    [sys.displayhook] is as the preceding statements left it. *)
Theorem tail_value_returned (py : Python) (code : text)
    (ns : gmap string value) (filename : string) (hook0 : outer_hook)
    (body : list stmt) (l : Z) (E : expr) (d : option (option text))
    (ns1 : gmap string value) (h1 : hook) (v : value) :
  ast_parse py (SrcStr code) = Return (Module (body ++ [Expr l E]) d) →
  executes py body ns (Outer hook0) ns1 h1 →
  h1 ≠ Deleted →
  outcome (eval_expr py E ns1 Self) = Return v →
  (∀ h, Rebind h ∉ events (eval_expr py E ns1 Self)) →
  Delete ∉ events (eval_expr py E ns1 Self) →
  (exec_then_eval py code (Some ns) filename hook0).1 = Return v ∧
  namespace (exec_then_eval py code (Some ns) filename hook0).2
    = globals (eval_expr py E ns1 Self) ∧
  displayhook (exec_then_eval py code (Some ns) filename hook0).2 = h1.
Proof.
  intros Hparse Hexec Hh1 Hout Hno Hdel. unfold exec_then_eval.
  rewrite Hparse. cbn [mbind result_bind ast_body].
  change (default ∅ (Some ns)) with ns.
  rewrite split_tail_expression.
  destruct (for_in_executes py body ns (Outer hook0) ns1 h1 __init__)
    as [-> _]; [done..|].
  unfold with_catch_display. rewrite enter_present by done.
  cbn [for_in exec_Interactive namespace displayhook output catch_display __init__].
  unfold perform. rewrite Hout.
  destruct (events_report_only (events (eval_expr py E ns1 Self))
              {| namespace := globals (eval_expr py E ns1 Self);
                 displayhook := Self;
                 catch_display := {| output := VNone; old_hook := Some h1 |} |}
              Hno Hdel eq_refl) as (Hhook & Hns & Hold).
  cbn [namespace displayhook catch_display] in *.
  destruct (foldl apply_event _ _) as [ns2 hook2 [out2 old2]].
  cbn in Hhook, Hns, Hold. subst. done.
Qed.

(** C1 on the text [x = 1], newline, [x]: the call returns 1. *)
Lemma tail_value_returned_sample :
  (exec_then_eval Sample.python x_then_x (Some ∅) "<string>"
     sys___displayhook__).1 = Return (VInt 1) ∧
  namespace (exec_then_eval Sample.python x_then_x (Some ∅) "<string>"
               sys___displayhook__).2
    = globals (eval_expr Sample.python (PyExpr "x")
                 (<["x" := VInt 1]> (Sample.with_builtins ∅)) Self) ∧
  displayhook (exec_then_eval Sample.python x_then_x (Some ∅) "<string>"
                 sys___displayhook__).2 = Outer sys___displayhook__.
Proof.
  apply (tail_value_returned Sample.python x_then_x ∅ "<string>"
           sys___displayhook__ [PyStmt 1 "x = 1"] 2 (PyExpr "x") None
           (<["x" := VInt 1]> (Sample.with_builtins ∅))
           (Outer sys___displayhook__) (VInt 1)).
  - reflexivity.
  - apply executes_cons; [reflexivity|]. apply executes_nil.
  - discriminate.
  - reflexivity.
  - intros h Hin. vm_compute in Hin. inversion Hin.
  - intros Hin. vm_compute in Hin. inversion Hin.
Defined.

(** A tail that reads what a docstring statement before it bound: on the
    string literal [note] followed by [__doc__] the call returns [note]. *)
Example docstring_statement_then___doc__ :
  (exec_then_eval Sample.python note_then___doc__ (Some ∅) "<string>"
     sys___displayhook__).1 = Return (VStr (u_ "note")).
Proof. reflexivity. Qed.

(** ** Further properties of the Source Loader *)

(** The loader returns in two ways only: with the tree the parser returned,
    or with an absent tree after a syntax error of the parser; in both the
    text is the decoding of the normalized content.  An absent tree never
    stands for another failure. *)
Theorem loader_result_origin (py : Python) (filename : string)
    (node : option ast) (s : text) :
  _parse_source_file py filename = Return (node, s) →
  ∃ content,
    read_binary py filename = Return content ∧
    utf8_decode (replace_crlf content) = Some s ∧
    (node = None ↔
     ∃ e, ast_parse py (SrcBytes (replace_crlf content)) = Raise e ∧
          isinstance_SyntaxError e = true) ∧
    (∀ tree, node = Some tree ↔
             ast_parse py (SrcBytes (replace_crlf content)) = Return tree).
Proof.
  intros Hload.
  destruct (loader_returns py filename node s Hload)
    as (content & Hread & Hdec & Hnode).
  exists content. split; [done|]. split; [done|].
  destruct node as [tree|].
  - split.
    + split; [done|]. intros (e & He & _). congruence.
    + intros tree'. split; [by intros [= ->]|]. congruence.
  - destruct Hnode as (e & He & Hsyn). split.
    + split; [eauto|done].
    + intros tree. split; [done|]. congruence.
Qed.

Lemma loader_result_origin_sample :
  ∃ content,
    read_binary Sample.python "unbalanced.py" = Return content ∧
    utf8_decode (replace_crlf content) = Some (u_ "x = (" ++ [NL]) ∧
    (@None ast = None ↔
     ∃ e, ast_parse Sample.python (SrcBytes (replace_crlf content)) = Raise e ∧
          isinstance_SyntaxError e = true) ∧
    (∀ tree, None = Some tree ↔
             ast_parse Sample.python (SrcBytes (replace_crlf content))
               = Return tree).
Proof.
  apply (loader_result_origin Sample.python "unbalanced.py" None
           (u_ "x = (" ++ [NL])).
  reflexivity.
Defined.

(** Two-step induction for functions that look at a byte and its successor. *)
Lemma bytes_pair_ind (P : bytes → Prop) :
  P [] →
  (∀ c, P [c]) →
  (∀ c c' rest, P rest → P (c' :: rest) → P (c :: c' :: rest)) →
  ∀ content, P content.
Proof.
  intros Hnil Hone Hstep content.
  assert (H : P content ∧ ∀ c, P (c :: content)); [|by destruct H].
  induction content as [|c' rest [IH1 IH2]]; [by split|].
  split; [apply IH2|]. intros c. apply Hstep; [done|apply IH2].
Qed.

Lemma has_crlf_pair c c' rest :
  has_crlf (c :: c' :: rest) =
    (Byte.eqb c CR && Byte.eqb c' LF) || has_crlf (c' :: rest).
Proof. reflexivity. Qed.

Lemma replace_crlf_length content :
  (length (replace_crlf content) ≤ length content)%nat ∧
  (has_crlf content = true →
   (length (replace_crlf content) < length content)%nat).
Proof.
  induction content as [|c|c c' rest [IH1 IH2] [IH1' IH2']] using bytes_pair_ind;
    [by split..|].
  rewrite replace_crlf_pair, has_crlf_pair.
  destruct (Byte.eqb c CR && Byte.eqb c' LF); cbn [orb length] in *.
  - split; [lia|]. intros _. lia.
  - split; [lia|]. intros H. specialize (IH2' H). lia.
Qed.

(** Normalization changes a content exactly when it holds a CR LF pair. *)
Theorem replace_crlf_fixed_iff (content : bytes) :
  replace_crlf content = content ↔ has_crlf content = false.
Proof.
  split.
  - intros Heq. destruct (has_crlf content) eqn:Hcr; [|done].
    destruct (replace_crlf_length content) as [_ Hlt].
    specialize (Hlt Hcr). rewrite Heq in Hlt. lia.
  - induction content as [|c|c c' rest IH IH'] using bytes_pair_ind; [done..|].
    rewrite replace_crlf_pair, has_crlf_pair.
    destruct (Byte.eqb c CR && Byte.eqb c' LF); [done|].
    cbn [orb]. intros H. by rewrite (IH' H).
Qed.

(** Normalization is applied once: its result can hold a CR LF pair again. *)
Example replace_crlf_leaves_a_pair :
  has_crlf (replace_crlf (b_ "x" ++ [CR; CR; LF])) = true.
Proof. reflexivity. Qed.

Lemma replace_crlf_ascii content :
  ascii_only content = true → ascii_only (replace_crlf content) = true.
Proof.
  unfold ascii_only.
  induction content as [|c|c c' rest IH IH'] using bytes_pair_ind; [done..|].
  rewrite replace_crlf_pair. intros H.
  cbn [forallb] in H. apply andb_prop in H as [Hc H].
  destruct (Byte.eqb c CR && Byte.eqb c' LF).
  - apply andb_prop in H as [_ H]. cbn [forallb]. by rewrite (IH H).
  - cbn [forallb]. rewrite Hc. exact (IH' H).
Qed.

Lemma utf8_decode_ascii content :
  ascii_only content = true → utf8_decode content = Some (Byte.to_N <$> content).
Proof.
  unfold ascii_only. induction content as [|c rest IH]; [done|].
  cbn [forallb]. intros H. apply andb_prop in H as [Hc H].
  cbn [utf8_decode]. cbv zeta. rewrite Hc, (IH H). reflexivity.
Qed.

(** A readable file of ASCII bytes is never refused for its encoding: the
    loader raises for it only what the parser raised, and that is no syntax
    error; otherwise it returns the byte values of the normalized content as
    text. *)
Theorem loader_ascii (py : Python) (filename : string) (content : bytes) :
  read_binary py filename = Return content →
  ascii_only content = true →
  match _parse_source_file py filename with
  | Return (_, s) => s = Byte.to_N <$> replace_crlf content
  | Raise e =>
      ast_parse py (SrcBytes (replace_crlf content)) = Raise e ∧
      isinstance_SyntaxError e = false
  end.
Proof.
  intros Hread Hascii. unfold _parse_source_file, bytes_decode.
  rewrite Hread. cbn [mbind result_bind].
  rewrite (utf8_decode_ascii _ (replace_crlf_ascii _ Hascii)).
  destruct (ast_parse py _) as [node|e]; [done|].
  by destruct (isinstance_SyntaxError e) eqn:He.
Qed.

Lemma loader_ascii_sample :
  match _parse_source_file Sample.python "doc_then_x_crlf.py" with
  | Return (_, s) => s = Byte.to_N <$> replace_crlf doc_then_x_crlf
  | Raise e =>
      ast_parse Sample.python (SrcBytes (replace_crlf doc_then_x_crlf)) = Raise e ∧
      isinstance_SyntaxError e = false
  end.
Proof.
  apply (loader_ascii Sample.python "doc_then_x_crlf.py" doc_then_x_crlf);
    reflexivity.
Defined.

(** ** Further properties of the Docstring Splitter *)

(** The two ways in which the splitter returns a record. *)
Lemma splitter_returns py filename d rest start_line :
  get_docstring_and_rest py filename = Return (d, rest, start_line) →
  ∃ s,
    (_parse_source_file py filename = Return (None, s) ∧
     d = SYNTAX_ERROR_DOCSTRING ∧ rest = s ∧ start_line = 1) ∨
    (∃ body lineno,
       _parse_source_file py filename = Return (Some (Module body None), s) ∧
       leading_string_literal body = Some (lineno, d) ∧
       d ≠ [] ∧
       item_last (str_split s NL lineno) = Return rest ∧
       start_line = lineno + 1).
Proof.
  intros Hget.
  destruct (_parse_source_file py filename) as [[node s]|e] eqn:Hload;
    [|unfold get_docstring_and_rest in Hget; rewrite Hload in Hget;
      discriminate].
  exists s. destruct node as [[body [d'|]|body|e]|].
  - rewrite (splitter_attribute _ _ _ _ _ Hload) in Hget. discriminate.
  - right. exists body.
    destruct (leading_string_literal body) as [[lineno d']|] eqn:Hlead.
    + destruct (item_last_split s lineno) as [rest' Hrest].
      rewrite (splitter_leading_literal _ _ _ _ _ _ _ Hload Hlead Hrest) in Hget.
      destruct d' as [|c d']; [discriminate|]. injection Hget as <- <- <-.
      exists lineno. done.
    + rewrite (splitter_no_literal _ _ _ _ Hload Hlead) in Hget. discriminate.
  - unfold get_docstring_and_rest in Hget. rewrite Hload in Hget. discriminate.
  - unfold get_docstring_and_rest in Hget. rewrite Hload in Hget. discriminate.
  - left. unfold get_docstring_and_rest in Hget. rewrite Hload in Hget.
    by injection Hget as <- <- <-.
Qed.

(** The splitter never returns an empty docstring: an empty or missing one
    is an error, and the sentinel is not empty. *)
Theorem docstring_never_empty (py : Python) (filename : string)
    (d rest : text) (start_line : Z) :
  get_docstring_and_rest py filename = Return (d, rest, start_line) →
  d ≠ [].
Proof.
  intros Hget.
  destruct (splitter_returns _ _ _ _ _ Hget)
    as [s [(_ & -> & _)|(body & lineno & _ & _ & Hd & _)]]; done.
Qed.

Lemma docstring_never_empty_sample : u_ "doc" ≠ [].
Proof.
  apply (docstring_never_empty Sample.python "doc_then_x.py" (u_ "doc")
           (u_ "x = 1" ++ [NL]) 2).
  reflexivity.
Defined.

(** A module whose first statement is an empty string literal is refused like
    a module without docstring. *)
Theorem empty_docstring_refused (py : Python) (filename : string)
    (content : bytes) (body : list stmt) (s : text) (lineno : Z) :
  read_binary py filename = Return content →
  ast_parse py (SrcBytes (replace_crlf content)) = Return (Module body None) →
  utf8_decode (replace_crlf content) = Some s →
  leading_string_literal body = Some (lineno, []) →
  get_docstring_and_rest py filename
    = Raise (ValueError (missing_docstring_message filename)).
Proof.
  intros Hread Hparse Hdec Hlead.
  destruct (item_last_split s lineno) as [rest Hrest].
  apply (splitter_leading_literal py filename body lineno [] s rest);
    [by eapply loader_parsed|done..].
Qed.

Lemma empty_docstring_refused_sample :
  get_docstring_and_rest More.python "empty_doc_then_x.py"
    = Raise (ValueError (missing_docstring_message "empty_doc_then_x.py")).
Proof.
  apply (empty_docstring_refused More.python "empty_doc_then_x.py"
           empty_doc_then_x [Expr 1 (Str []); PyStmt 2 "x = 1"]
           (Byte.to_N <$> empty_doc_then_x) 1); reflexivity.
Defined.

(** The last piece of a split is a suffix of the text that was split. *)
Lemma split_go_suffix sep n acc s piece :
  last (split_go sep n acc s) = Some piece →
  ∃ before, rev acc ++ s = before ++ piece.
Proof.
  revert n acc. induction s as [|c s IH]; intros n acc Hlast.
  { cbn in Hlast. injection Hlast as <-. exists []. cbn. by rewrite app_nil_r. }
  destruct n as [|n]; [cbn in Hlast; injection Hlast as <-; by exists []|].
  cbn [split_go] in Hlast. destruct (c =? sep)%N.
  - assert (last (split_go sep n [] s) = Some piece) as Hpiece.
    { destruct (split_go_last sep n [] s) as [p Hp].
      destruct (split_go sep n [] s); [discriminate|exact Hlast]. }
    destruct (IH n [] Hpiece) as [before Hbefore]. cbn in Hbefore.
    exists (rev acc ++ c :: before). rewrite Hbefore.
    by rewrite <- app_assoc.
  - destruct (IH (S n) (c :: acc) Hlast) as [before Hbefore].
    exists before. rewrite <- Hbefore. cbn [rev]. by rewrite <- app_assoc.
Qed.

(** Whatever record the splitter returns, its rest is a suffix of the decoded
    normalized content of the file: the splitter cuts, it adds no text. *)
Theorem rest_is_suffix (py : Python) (filename : string)
    (d rest : text) (start_line : Z) :
  get_docstring_and_rest py filename = Return (d, rest, start_line) →
  ∃ content before,
    read_binary py filename = Return content ∧
    utf8_decode (replace_crlf content) = Some (before ++ rest).
Proof.
  intros Hget.
  destruct (splitter_returns _ _ _ _ _ Hget)
    as [s [(Hload & _ & -> & _)|(body & lineno & Hload & _ & _ & Hrest & _)]];
    destruct (loader_returns _ _ _ _ Hload) as (content & Hread & Hdec & _);
    exists content.
  - by exists [].
  - unfold item_last, str_split in Hrest.
    destruct (last _) as [piece|] eqn:Hlast; [|discriminate].
    injection Hrest as ->.
    destruct (split_go_suffix _ _ _ _ _ Hlast) as [before Hbefore].
    exists before. by rewrite <- Hbefore.
Qed.

Lemma rest_is_suffix_sample :
  ∃ content before,
    read_binary Sample.python "doc_then_x.py" = Return content ∧
    utf8_decode (replace_crlf content) = Some (before ++ (u_ "x = 1" ++ [NL])).
Proof.
  apply (rest_is_suffix Sample.python "doc_then_x.py" (u_ "doc")
           (u_ "x = 1" ++ [NL]) 2).
  reflexivity.
Defined.

(** With fewer than [n] newlines in [s], the last piece of a split at [n]
    newlines is the text after the last newline. *)
Lemma split_go_last_line n acc s :
  (newlines s < n)%nat →
  last (split_go NL n acc s)
    = Some (foldl (λ line c, if (c =? NL)%N then [] else line ++ [c]) (rev acc) s).
Proof.
  revert n acc. induction s as [|c s IH]; intros n acc Hn; [done|].
  destruct n as [|n]; [lia|]. rewrite newlines_cons in Hn.
  cbn [split_go foldl]. destruct (c =? NL)%N.
  - assert (Hs := IH n []). cbn [rev] in Hs. rewrite <- Hs by lia.
    destruct (split_go_last NL n [] s) as [p Hp].
    by destruct (split_go NL n [] s).
  - by rewrite (IH (S n) (c :: acc)) by lia.
Qed.

(** When the content ends before line [lineno] is terminated (it has fewer
    than [lineno] newlines), the rest is the last line of the content, and the
    start line is past the end of the file. *)
Theorem rest_of_unterminated_content (py : Python) (filename : string)
    (content : bytes) (body : list stmt) (s : text) (lineno : Z) (c : N)
    (d : text) :
  read_binary py filename = Return content →
  ast_parse py (SrcBytes (replace_crlf content)) = Return (Module body None) →
  utf8_decode (replace_crlf content) = Some s →
  leading_string_literal body = Some (lineno, c :: d) →
  (newlines s < Z.to_nat lineno)%nat →
  get_docstring_and_rest py filename
    = Return (c :: d, last_line s, lineno + 1).
Proof.
  intros Hread Hparse Hdec Hlead Hnl.
  apply (splitter_leading_literal py filename body lineno (c :: d) s (last_line s));
    [by eapply loader_parsed|done|].
  unfold item_last, str_split.
  destruct (Z.ltb_spec lineno 0) as [|_]; [lia|].
  by rewrite (split_go_last_line _ [] s Hnl).
Qed.

Lemma rest_of_unterminated_content_sample :
  get_docstring_and_rest Sample.python "doc_only.py"
    = Return (u_ "doc", last_line (Byte.to_N <$> doc_literal), 1 + 1).
Proof.
  apply (rest_of_unterminated_content Sample.python "doc_only.py" doc_literal
           [Expr 1 (Str (u_ "doc"))] (Byte.to_N <$> doc_literal) 1);
    try reflexivity.
  vm_compute. lia.
Defined.

(** With a parser that numbers lines from 1, start line 1 marks the sentinel
    record: the splitter returns start line 1 exactly when the content failed
    to parse, and then the docstring is the sentinel text. *)
Theorem start_line_1_iff_parse_fails (py : Python) (filename : string)
    (d rest : text) (start_line : Z) :
  (∀ content body lineno d',
     read_binary py filename = Return content →
     ast_parse py (SrcBytes (replace_crlf content)) = Return (Module body None) →
     leading_string_literal body = Some (lineno, d') →
     1 ≤ lineno) →
  get_docstring_and_rest py filename = Return (d, rest, start_line) →
  (start_line = 1 ↔ parse_fails py filename) ∧
  (start_line = 1 → d = SYNTAX_ERROR_DOCSTRING).
Proof.
  intros Hlines Hget.
  destruct (splitter_returns _ _ _ _ _ Hget)
    as [s [(Hload & -> & _ & ->)|(body & lineno & Hload & Hlead & _ & _ & ->)]];
    destruct (loader_returns _ _ _ _ Hload) as (content & Hread & _ & Hnode).
  - split; [|done]. split; [|done]. intros _.
    destruct Hnode as (e & Hparse & He). by exists content, e.
  - pose proof (Hlines content body lineno d Hread Hnode Hlead).
    split; [|lia]. split; [lia|].
    intros (content' & e & Hread' & Hparse & _). congruence.
Qed.

Lemma start_line_1_iff_parse_fails_sample :
  (1 = 1 ↔ parse_fails Sample.python "unbalanced.py") ∧
  (1 = 1 → SYNTAX_ERROR_DOCSTRING = SYNTAX_ERROR_DOCSTRING).
Proof.
  apply (start_line_1_iff_parse_fails Sample.python "unbalanced.py"
           SYNTAX_ERROR_DOCSTRING (u_ "x = (" ++ [NL]) 1); [|reflexivity].
  intros content body lineno d' Hread Hparse.
  injection Hread as <-. vm_compute in Hparse. discriminate.
Defined.

(** ** Further properties of Display Capture and Split-Execute *)

(** Called several times, the capture keeps the last value it was given, and
    its saved hook is untouched. *)
Theorem capture_keeps_last_value (self : _CatchDisplay) (vs : list value) :
  output (foldl __call__ self vs) = default (output self) (last vs) ∧
  old_hook (foldl __call__ self vs) = old_hook self.
Proof.
  revert self. induction vs as [|v vs IH]; intros self; [done|].
  cbn [foldl]. destruct (IH (__call__ self v)) as [-> ->]. split; [|done].
  rewrite last_cons. by destruct (last vs).
Qed.

(** The statements are split without loss: [to_exec] followed by [to_eval]
    is the whole body, in order, and [to_eval] is either empty, when the last
    statement is no expression statement, or that one expression statement. *)
Theorem split_tail_partition (body to_exec to_eval : list stmt) :
  split_tail body = Return (to_exec, to_eval) →
  to_exec ++ to_eval = body ∧
  ((to_eval = [] ∧ ∃ l src, last body = Some (PyStmt l src)) ∨
   (∃ l e, to_eval = [Expr l e])).
Proof.
  destruct body as [|node body _] using rev_ind; [discriminate|].
  destruct node as [l e|l src].
  - rewrite split_tail_expression. intros [= <- <-]. split; [done|].
    right. by exists l, e.
  - rewrite (split_tail_statement _ (PyStmt l src));
      [|by rewrite last_snoc|done].
    intros [= <- <-]. split; [by rewrite app_nil_r|].
    left. split; [done|]. exists l, src. by rewrite last_snoc.
Qed.

Lemma split_tail_partition_sample :
  [PyStmt 1 "x = 1"] ++ [Expr 2 (PyExpr "x")]
    = [PyStmt 1 "x = 1"; Expr 2 (PyExpr "x")] ∧
  ((([Expr 2 (PyExpr "x")] : list stmt) = [] ∧
    ∃ l src, last [PyStmt 1 "x = 1"; Expr 2 (PyExpr "x")] = Some (PyStmt l src)) ∨
   (∃ l e, [Expr 2 (PyExpr "x")] = [Expr l e])).
Proof.
  apply (split_tail_partition [PyStmt 1 "x = 1"; Expr 2 (PyExpr "x")]
           [PyStmt 1 "x = 1"] [Expr 2 (PyExpr "x")]).
  reflexivity.
Defined.

Section split_execute_more.
Context (py : Python).

(** The loop over [to_exec] after a prefix of statements that complete. *)
Lemma for_in_executes_app pre nodes ns h ns1 h1 cd :
  h ≠ Self →
  executes py pre ns h ns1 h1 →
  for_in (exec_Module py) (pre ++ nodes)
    {| namespace := ns; displayhook := h; catch_display := cd |}
  = for_in (exec_Module py) nodes
      {| namespace := ns1; displayhook := h1; catch_display := cd |} ∧
  h1 ≠ Self.
Proof.
  intros Hh Hexec.
  induction Hexec as [ns h|node pre ns h ns' h' Hout Hexec IH]; [done|].
  destruct (events_not_self (events (exec_stmt py node ns h))
              (globals (exec_stmt py node ns h)) h cd Hh) as [Hev Hh1].
  assert (Hstep :
    exec_Module py node
      {| namespace := ns; displayhook := h; catch_display := cd |}
    = (Return (),
       {| namespace := globals (exec_stmt py node ns h);
          displayhook := rebound h (events (exec_stmt py node ns h));
          catch_display := cd |})).
  { unfold exec_Module, perform. cbn. by rewrite Hout, Hev. }
  cbn [for_in app]. rewrite Hstep. by apply IH.
Qed.




End split_execute_more.

(** A statement that raises ends the call with its exception: the statements
    before it have run, in order, no later statement and no tail is run, the
    capture has not been installed, and the namespace and [sys.displayhook]
    are as the failing statement left them. *)
Theorem failing_statement_ends_call (py : Python) (code : text)
    (ns : gmap string value) (filename : string) (hook0 : outer_hook)
    (body to_eval pre post : list stmt) (d : option (option text))
    (node : stmt) (ns1 : gmap string value) (h1 : hook) (e : exn) :
  ast_parse py (SrcStr code) = Return (Module body d) →
  split_tail body = Return (pre ++ node :: post, to_eval) →
  executes py pre ns (Outer hook0) ns1 h1 →
  outcome (exec_stmt py node ns1 h1) = Raise e →
  exec_then_eval py code (Some ns) filename hook0
    = (Raise e,
       {| namespace := globals (exec_stmt py node ns1 h1);
          displayhook := rebound h1 (events (exec_stmt py node ns1 h1));
          catch_display := __init__ |}).
Proof.
  intros Hparse Hsplit Hexec Hout. unfold exec_then_eval.
  rewrite Hparse. cbn [mbind result_bind ast_body].
  change (default ∅ (Some ns)) with ns. rewrite Hsplit.
  destruct (for_in_executes_app py pre (node :: post) ns (Outer hook0) ns1 h1
              __init__) as [-> Hh1]; [done..|].
  destruct (events_not_self (events (exec_stmt py node ns1 h1))
              (globals (exec_stmt py node ns1 h1)) h1 __init__ Hh1)
    as [Hev _].
  cbn [for_in]. unfold exec_Module, perform. cbn. by rewrite Hout, Hev.
Qed.

(** On [x = 1], [raise KeyError], [y = 2]: the call raises [KeyError]; [x] is
    bound and [y] is not. *)
Lemma failing_statement_ends_call_sample :
  exec_then_eval More.python x_raise_y (Some ∅) "<string>" sys___displayhook__
    = (Raise (OtherError "KeyError"),
       {| namespace :=
            globals (exec_stmt More.python (PyStmt 2 "raise KeyError")
                       (<["x" := VInt 1]> (Sample.with_builtins ∅))
                       (Outer sys___displayhook__));
          displayhook :=
            rebound (Outer sys___displayhook__)
              (events (exec_stmt More.python (PyStmt 2 "raise KeyError")
                         (<["x" := VInt 1]> (Sample.with_builtins ∅))
                         (Outer sys___displayhook__)));
          catch_display := __init__ |}).
Proof.
  apply (failing_statement_ends_call More.python x_raise_y ∅ "<string>"
           sys___displayhook__
           [PyStmt 1 "x = 1"; PyStmt 2 "raise KeyError"; PyStmt 3 "y = 2"]
           [] [PyStmt 1 "x = 1"] [PyStmt 3 "y = 2"] None
           (PyStmt 2 "raise KeyError")); try reflexivity.
  apply executes_cons; [reflexivity|]. apply executes_nil.
Defined.

Example failing_statement_namespace :
  (namespace (exec_then_eval More.python x_raise_y (Some ∅) "<string>"
                sys___displayhook__).2) !! "x" = Some (VInt 1) ∧
  (namespace (exec_then_eval More.python x_raise_y (Some ∅) "<string>"
                sys___displayhook__).2) !! "y" = None.
Proof. split; reflexivity. Qed.


